(** * Load-test harness of the interview application

    A shallow embedding of [scripts/load_test.py]: the session identifier
    generator, the session driver [run_single_interview] and the batch
    runner [main], followed by the properties of the harness.

    Python values are modelled as follows.
    - [int] is [Z]; [str] is [string]; [float] is IEEE binary64, taken from
      the Standard Library's executable model [spec_float] (53 bits of
      precision, maximal exponent 1024).
    - A function with effects is a computation in the monad [M]: it reads
      the environment the session observes (entropy, service replies, clock,
      platform behaviour), threads the session state and either returns a
      value or raises an exception.
    - The calls a session makes to the outside (HTTP exchanges, body
      parsing, sleeping) are recorded, in order, in the trace of its state. *)

From Stdlib Require Import ZArith List String Ascii Bool Lia Permutation.
From Stdlib Require Import DecimalString DecimalZ.
From Stdlib Require Import SpecFloat.
Import ListNotations.

Local Open Scope string_scope.
Local Open Scope list_scope.
Local Open Scope Z_scope.

(** ** Floating point numbers (binary64) *)

Definition float : Type := spec_float.

Module Float64.

Definition prec : Z := 53.
Definition emax : Z := 1024.

Definition zero : float := S754_zero false.
Definition of_Z (n : Z) : float := binary_normalize prec emax n 0 false.

Definition add (x y : float) : float := SFadd prec emax x y.
Definition sub (x y : float) : float := SFsub prec emax x y.
Definition mul (x y : float) : float := SFmul prec emax x y.
Definition div (x y : float) : float := SFdiv prec emax x y.

Definition ltb (x y : float) : bool := SFltb x y.
Definition eqb (x y : float) : bool := SFeqb x y.

(** [x > y] in Python. *)
Definition gtb (x y : float) : bool := ltb y x.

End Float64.

(** ** Requests, responses and exceptions *)

Inductive http_method : Type := GET | POST.

(** The dictionary sent as the JSON body of a turn request. *)
Record Payload : Type := mkPayload {
  p_session_id : string;
  p_interview_id : string;
  p_user_message : string
}.

Record Request : Type := mkRequest {
  req_method : http_method;
  req_url : string;
  req_json : option Payload
}.

(** What the service answers to one request: no answer at all (connection
    refused, timeout, ...) or a status code with a body. *)
Inductive reply : Type :=
| TransportFailure
| Reply (status : Z) (body : string).

(** A [requests.Response]: status, decoded body and the request it answers
    ([Response.request], with the body that was sent). *)
Record Response : Type := mkResponse {
  status_code : Z;
  text : string;
  request : Request
}.

(** The exceptions at play. [RequestException] stands for the failures of
    the transport; the [HTTPError] that [raise_for_status] raises carries
    the response it was raised for, and with it the request. *)
Inductive exn : Type :=
| RequestException (req : Request)
| HTTPError (resp : Response)
| JSONDecodeError (doc : string)
| RuntimeError (msg : string)
| ValueError (msg : string)
| OverflowError (msg : string)
| IndexError (msg : string)
| ZeroDivisionError (msg : string).

Inductive outcome (A : Type) : Type :=
| Returned (a : A)
| Raised (e : exn).

Arguments Returned {A} a.
Arguments Raised {A} e.

(** ** The environment and the state of a session *)

(** The calls of a session to the outside, as they happen. *)
Inductive event : Type :=
| Exchange (req : Request) (r : reply)
| JsonCall (body : string)
| SleepCall (d : float).

(** What one session observes of the world while it runs. Sessions run in
    worker threads and share the random generator, the service and the
    clock; whatever the interleaving, each session sees one sequence of
    raw random draws, one sequence of replies and one sequence of clock
    readings. [json_ok] tells whether a body is a JSON document;
    [sleep_check] is [time.sleep]'s validation of its argument (CPython
    raises [ValueError] on a negative or NaN length and [OverflowError]
    on one beyond the platform's time range). *)
Record Env : Type := mkEnv {
  draws : nat -> Z;
  replies : nat -> reply;
  clock : nat -> float;
  json_ok : string -> bool;
  sleep_check : float -> option exn
}.

(** The mutable part of a session: the local counter [total_requests],
    the positions reached in the three sequences, and the trace. *)
Record State : Type := mkState {
  total_requests : Z;
  rng_pos : nat;
  net_pos : nat;
  clk_pos : nat;
  trace : list event
}.

Definition init_state : State := mkState 0 0 0 0 [].

Definition M (A : Type) : Type := Env -> State -> outcome A * State.

Definition ret {A : Type} (a : A) : M A := fun _ s => (Returned a, s).

Definition raise {A : Type} (e : exn) : M A := fun _ s => (Raised e, s).

Definition bind {A B : Type} (c : M A) (k : A -> M B) : M B :=
  fun env s =>
    match c env s with
    | (Returned a, s') => k a env s'
    | (Raised e, s') => (Raised e, s')
    end.

Notation "x <- c1 ;; c2" := (bind c1 (fun x => c2))
  (at level 61, c1 at next level, right associativity).
Notation "c1 ;; c2" := (bind c1 (fun _ => c2))
  (at level 61, right associativity).

(** [try: c except E: h]: the handler chooses the exceptions it catches. *)
Definition try_except {A : Type} (c : M A) (h : exn -> option (M A)) : M A :=
  fun env s =>
    match c env s with
    | (Returned a, s') => (Returned a, s')
    | (Raised e, s') =>
        match h e with
        | Some k => k env s'
        | None => (Raised e, s')
        end
    end.

(** [for x in xs: body x] *)
Fixpoint for_each {A : Type} (xs : list A) (body : A -> M unit) : M unit :=
  match xs with
  | [] => ret tt
  | x :: xs' => body x ;; for_each xs' body
  end.

(** [range(n)]: empty when [n] is not positive. *)
Definition py_range (n : Z) : list Z := map Z.of_nat (seq 0 (Z.to_nat n)).

Definition log (ev : event) : M unit :=
  fun _ s =>
    (Returned tt,
     mkState (total_requests s) (rng_pos s) (net_pos s) (clk_pos s)
             (trace s ++ [ev])).

Definition set_total_requests (n : Z) : M unit :=
  fun _ s =>
    (Returned tt, mkState n (rng_pos s) (net_pos s) (clk_pos s) (trace s)).

Definition get_total_requests : M Z :=
  fun _ s => (Returned (total_requests s), s).

(** ** Library primitives *)

(** The next raw draw of the random generator. *)
Definition next_draw : M Z :=
  fun env s =>
    (Returned (draws env (rng_pos s)),
     mkState (total_requests s) (S (rng_pos s)) (net_pos s) (clk_pos s)
             (trace s)).

(** [random._randbelow(n)] for a positive [n]: a value in [[0, n)]. The
    generator's own way to it (bits drawn again until they fit) is not
    modelled, only its result. *)
Definition randbelow (n : Z) : M Z :=
  r <- next_draw ;; ret (r mod n).

(** [random.choice(seq)], that is [seq[randbelow(len(seq))]]. *)
Definition random_choice (chars : string) : M ascii :=
  if Nat.eqb (String.length chars) 0 then raise (IndexError "Cannot choose from an empty sequence")
  else
    i <- randbelow (Z.of_nat (String.length chars)) ;;
    match String.get (Z.to_nat i) chars with
    | Some c => ret c
    | None => raise (IndexError "string index out of range")
    end.

(** [random.random()]: [k / 2^53] for 53 random bits [k]. *)
Definition random_unit (raw : Z) : float :=
  binary_normalize Float64.prec Float64.emax (raw mod 2 ^ 53) (-53) false.

Definition random_random : M float :=
  r <- next_draw ;; ret (random_unit r).

(** [random.uniform(a, b)] is [a + (b - a) * random()]. *)
Definition uniform_of (a b u : float) : float :=
  Float64.add a (Float64.mul (Float64.sub b a) u).

Definition random_uniform (a b : float) : M float :=
  u <- random_random ;; ret (uniform_of a b u).

Definition time_time : M float :=
  fun env s =>
    (Returned (clock env (clk_pos s)),
     mkState (total_requests s) (rng_pos s) (net_pos s) (S (clk_pos s))
             (trace s)).

Definition time_sleep (d : float) : M unit :=
  log (SleepCall d) ;;
  fun env s =>
    match sleep_check env d with
    | Some e => (Raised e, s)
    | None => (Returned tt, s)
    end.

(** One HTTP exchange: the request is sent, the next reply of the service
    is consumed. *)
Definition http_exchange (req : Request) : M Response :=
  fun env s =>
    let r := replies env (net_pos s) in
    let s' := mkState (total_requests s) (rng_pos s) (S (net_pos s))
                      (clk_pos s) (trace s ++ [Exchange req r]) in
    match r with
    | TransportFailure => (Raised (RequestException req), s')
    | Reply st body => (Returned (mkResponse st body req), s')
    end.

Definition requests_get (url : string) : M Response :=
  http_exchange (mkRequest GET url None).

Definition requests_post (url : string) (json : Payload) : M Response :=
  http_exchange (mkRequest POST url (Some json)).

(** The statuses on which [Response.raise_for_status] raises: client
    errors (4xx) and server errors (5xx). *)
Definition is_error_status (st : Z) : bool :=
  (400 <=? st) && (st <? 600).

Definition raise_for_status (resp : Response) : M unit :=
  if is_error_status (status_code resp) then raise (HTTPError resp)
  else ret tt.

(** [Response.json()]: the body is a JSON document, or the parser raises
    its [JSONDecodeError]. What else the parser can raise on a
    pathological body (a [RecursionError] on very deep nesting, say) is
    not modelled. *)
Definition resp_json (resp : Response) : M unit :=
  log (JsonCall (text resp)) ;;
  fun env s =>
    if json_ok env (text resp) then (Returned tt, s)
    else (Raised (JSONDecodeError (text resp)), s).

(** ** Strings *)

Definition char_in (c : ascii) (chars : string) : bool :=
  existsb (Ascii.eqb c) (list_ascii_of_string chars).

(** [s.rstrip(chars)]: [s] without its trailing characters that occur in
    [chars]. *)
Fixpoint rstrip (s chars : string) : string :=
  match s with
  | EmptyString => EmptyString
  | String a s' =>
      match rstrip s' chars with
      | EmptyString => if char_in a chars then EmptyString else String a EmptyString
      | r => String a r
      end
  end.

(** [str(n)] for an integer. *)
Definition str_of_int (n : Z) : string := NilZero.string_of_int (Z.to_int n).

Definition ascii_lowercase : string := "abcdefghijklmnopqrstuvwxyz".
Definition ascii_uppercase : string := "ABCDEFGHIJKLMNOPQRSTUVWXYZ".
Definition ascii_letters : string := (ascii_lowercase ++ ascii_uppercase)%string.
Definition digits : string := "0123456789".

(** ** The session identifier generator *)

(** ["".join(g)] for a generator [g] of [n] characters, each made by [c]. *)
Fixpoint join_chars (n : nat) (c : M ascii) : M string :=
  match n with
  | O => ret EmptyString
  | S n' => a <- c ;; rest <- join_chars n' c ;; ret (String a rest)
  end.

Definition alphabet : string := (ascii_letters ++ digits)%string.

Definition random_session_id (length : Z) : M string :=
  let chars := alphabet in
  join_chars (List.length (py_range length)) (random_choice chars).

Definition default_length : Z := 16.

(** ** The session driver *)

Definition url_landing (base_url interview_id session_id : string) : string :=
  (rstrip base_url "/" ++ "/" ++ interview_id ++ "/" ++ session_id)%string.

Definition url_next (base_url : string) : string :=
  (rstrip base_url "/" ++ "/next")%string.

(** The f-string [f"Dummy answer turn {turn}"]. *)
Definition turn_message (turn : Z) : string :=
  ("Dummy answer turn " ++ str_of_int turn)%string.

Definition turn_payload (session_id interview_id : string) (turn : Z) : Payload :=
  mkPayload session_id interview_id (turn_message turn).

Definition non_json_message (session_id body : string) : string :=
  ("Non-JSON response for session " ++ session_id ++ ": " ++ body)%string.

(** The body of the loop over the turns. *)
Definition turn_body (base_url interview_id session_id : string)
    (num_turns : Z) (min_delay max_delay : float) (turn : Z) : M unit :=
  let payload := turn_payload session_id interview_id turn in
  resp <- requests_post (url_next base_url) payload ;;
  n <- get_total_requests ;;
  set_total_requests (n + 1) ;;
  raise_for_status resp ;;
  try_except (resp_json resp)
    (fun e =>
       match e with
       | JSONDecodeError _ =>
           Some (raise (RuntimeError (non_json_message session_id (text resp))))
       | _ => None
       end) ;;
  if (turn <? num_turns - 1) && Float64.gtb max_delay Float64.zero then
    d <- random_uniform min_delay max_delay ;;
    time_sleep d
  else ret tt.

Definition run_single_interview (base_url interview_id : string)
    (num_turns : Z) (min_delay max_delay : float) : M (Z * float) :=
  session_id <- random_session_id default_length ;;
  start_time <- time_time ;;
  set_total_requests 0 ;;
  resp <- requests_get (url_landing base_url interview_id session_id) ;;
  n <- get_total_requests ;;
  set_total_requests (n + 1) ;;
  raise_for_status resp ;;
  for_each (py_range num_turns)
    (turn_body base_url interview_id session_id num_turns min_delay max_delay) ;;
  end_time <- time_time ;;
  n <- get_total_requests ;;
  ret (n, Float64.sub end_time start_time).

(** ** The batch runner *)

(** The parsed command line. *)
Record Args : Type := mkArgs {
  a_base_url : string;
  a_interview_id : string;
  a_users : Z;
  a_turns : Z;
  a_min_delay : float;
  a_max_delay : float;
  a_max_workers : option Z
}.

Definition default_args : Args :=
  mkArgs "http://127.0.0.1:8000" "STOCK_MARKET" 20 10
         (Float64.of_Z 1) (Float64.of_Z 3) None.

(** [a or b] where [a] is [None] or an integer: [b] when [a] is [None] or 0. *)
Definition py_or (a : option Z) (b : Z) : Z :=
  match a with
  | None => b
  | Some x => if x =? 0 then b else x
  end.

(** A finished future: the value its task returned or the exception it
    raised. *)
Definition future : Type := outcome (Z * float).

(** The futures of the batch, in the order of submission: task [i] runs one
    session in the environment [envs i] it observes. *)
Definition submit_all (args : Args) (envs : nat -> Env) : list future :=
  map (fun i =>
         fst (run_single_interview (a_base_url args) (a_interview_id args)
                (a_turns args) (a_min_delay args) (a_max_delay args)
                (envs i) init_state))
      (seq 0 (List.length (py_range (a_users args)))).

(** The loop over [as_completed(futures)]: [order] lists the futures in
    the order in which [as_completed] yields them, each future once. That
    order is not fixed by the code: the futures already finished when
    [as_completed] is called come first, in no particular order, the
    others follow as they finish. [future.result()] returns the task's
    value or raises the task's exception. The second component is the
    value of the local variable [total_requests] when the loop stops. *)
Fixpoint collect (futures : list future) (order : list nat) (total : Z)
  : outcome unit * Z :=
  match order with
  | [] => (Returned tt, total)
  | i :: rest =>
      match nth_error futures i with
      | Some (Returned (reqs, _)) => collect futures rest (total + reqs)
      | Some (Raised e) => (Raised e, total)
      | None => collect futures rest total
      end
  end.

(** [float(n)] for an integer. *)
Definition float_of_int (n : Z) : outcome float :=
  match Float64.of_Z n with
  | S754_infinity _ => Raised (OverflowError "int too large to convert to float")
  | x => Returned x
  end.

(** [n / d] for an integer [n] and a float [d]. *)
Definition truediv (n : Z) (d : float) : outcome float :=
  match float_of_int n with
  | Raised e => Raised e
  | Returned x =>
      if Float64.eqb d Float64.zero
      then Raised (ZeroDivisionError "float division by zero")
      else Returned (Float64.div x d)
  end.

(** [total_requests / total_duration if total_duration > 0 else 0.0] *)
Definition throughput (total : Z) (total_duration : float) : outcome float :=
  if Float64.gtb total_duration Float64.zero then truediv total total_duration
  else Returned Float64.zero.

(** What the last three [print] calls show. *)
Record Summary : Type := mkSummary {
  sum_total_requests : Z;
  sum_total_duration : float;
  sum_rps : float
}.

Definition summarise (total : Z) (global_start global_end : float)
  : outcome Summary :=
  let total_duration := Float64.sub global_end global_start in
  match throughput total total_duration with
  | Raised e => Raised e
  | Returned rps => Returned (mkSummary total total_duration rps)
  end.

(** [main]: [wall] gives the two clock readings of the main thread. The
    result pairs what [main] returns or raises with the last value of its
    local variable [total_requests]. [ThreadPoolExecutor] refuses a pool
    size that is not positive; leaving the [with] block, normally or by
    an exception, waits for the submitted tasks. *)
Definition main (args : Args) (envs : nat -> Env) (order : list nat)
    (wall : nat -> float) : outcome Summary * Z :=
  let max_workers := py_or (a_max_workers args) (a_users args) in
  let global_start := wall 0%nat in
  let total := 0 in
  if max_workers <=? 0
  then (Raised (ValueError "max_workers must be greater than 0"), total)
  else
    match collect (submit_all args envs) order total with
    | (Raised e, total) => (Raised e, total)
    | (Returned _, total) => (summarise total global_start (wall 1%nat), total)
    end.

(** ** Reading traces *)

Definition is_exchange (ev : event) : bool :=
  match ev with Exchange _ _ => true | _ => false end.

Definition is_sleep (ev : event) : bool :=
  match ev with SleepCall _ => true | _ => false end.

Definition is_json_call (ev : event) : bool :=
  match ev with JsonCall _ => true | _ => false end.

(** The requests a session sent. *)
Definition exchanges (tr : list event) : list event := filter is_exchange tr.

(** The request of turn [t], recognised by its method and its message. *)
Definition is_turn_request (t : Z) (req : Request) : bool :=
  match req_method req, req_json req with
  | POST, Some p => String.eqb (p_user_message p) (turn_message t)
  | _, _ => false
  end.

(** The first pause before the next request, if any. *)
Fixpoint first_sleep (tr : list event) : option float :=
  match tr with
  | [] => None
  | SleepCall d :: _ => Some d
  | Exchange _ _ :: _ => None
  | JsonCall _ :: rest => first_sleep rest
  end.

(** The pause taken after turn [t]: the one between the request of turn
    [t] and the next request. *)
Fixpoint pause_after (t : Z) (tr : list event) : option float :=
  match tr with
  | [] => None
  | Exchange req _ :: rest =>
      if is_turn_request t req then first_sleep rest else pause_after t rest
  | _ :: rest => pause_after t rest
  end.

(** A reply on which a turn goes through: no error status, a JSON body. *)
Definition good_reply (env : Env) (r : reply) : bool :=
  match r with
  | TransportFailure => false
  | Reply st body => negb (is_error_status st) && json_ok env body
  end.

(** Turn [t] was completed: its request got a good reply. *)
Definition turn_completed (env : Env) (t : Z) (tr : list event) : bool :=
  existsb (fun ev =>
             match ev with
             | Exchange req r => is_turn_request t req && good_reply env r
             | _ => false
             end) tr.


(** ** Sample environments *)

(** [time.sleep]'s check of its argument in CPython, up to the platform's
    upper limit: NaN and negative lengths are refused. *)
Definition cpython_sleep_check (d : float) : option exn :=
  match d with
  | S754_nan => Some (ValueError "Invalid value NaN (not a number)")
  | _ =>
      if Float64.ltb d Float64.zero
      then Some (ValueError "sleep length must be non-negative")
      else None
  end.

(** A service that answers every request with [200] and the body [{}]. *)
Definition healthy_env : Env :=
  mkEnv (fun n => 7 * Z.of_nat n) (fun _ => Reply 200 "{}")
        (fun n => Float64.of_Z (Z.of_nat n))
        (fun body => String.eqb body "{}") cpython_sleep_check.

(** A service whose answers are given by a list, then [200] and [{}]. *)
Definition scripted_env (script : list reply) : Env :=
  mkEnv (fun n => 7 * Z.of_nat n) (fun n => nth n script (Reply 200 "{}"))
        (fun n => Float64.of_Z (Z.of_nat n))
        (fun body => String.eqb body "{}") cpython_sleep_check.

(** The same service, seen by a session whose random draws are all equal. *)
Definition steady_env : Env :=
  mkEnv (fun _ => 4503599627370496) (fun _ => Reply 200 "{}")
        (fun n => Float64.of_Z (Z.of_nat n))
        (fun body => String.eqb body "{}") cpython_sleep_check.

(** A batch of three users with two turns each and the default delays. *)
Definition small_batch : Args :=
  mkArgs "http://127.0.0.1:8000" "STOCK_MARKET" 3 2
         (Float64.of_Z 1) (Float64.of_Z 3) None.

(** A batch of two users; the service is down for the first of them. *)
Definition pair_batch : Args :=
  mkArgs "http://127.0.0.1:8000" "STOCK_MARKET" 2 1
         Float64.zero Float64.zero None.

Definition pair_envs (i : nat) : Env :=
  match i with
  | O => scripted_env [Reply 500 "down"]
  | _ => healthy_env
  end.

Definition sample_wall (n : nat) : float := Float64.of_Z (10 * Z.of_nat n).

(** A service whose landing page is HTML and whose turns answer [{}]. *)
Definition html_landing_env : Env :=
  mkEnv (fun _ => 4503599627370496)
        (fun n => match n with
                  | O => Reply 200 "<html>"
                  | _ => Reply 200 "{}"
                  end)
        (fun n => Float64.of_Z (Z.of_nat n))
        (fun body => String.eqb body "{}") cpython_sleep_check.

(** A batch of two users with two turns each and a negative lower delay. *)
Definition negative_delay_batch : Args :=
  mkArgs "http://127.0.0.1:8000" "STOCK_MARKET" 2 2
         (Float64.of_Z (-5)) (Float64.of_Z 1) None.

(** A batch without users and without pool size. *)
Definition no_user_batch : Args :=
  mkArgs "http://127.0.0.1:8000" "STOCK_MARKET" 0 10
         (Float64.of_Z 1) (Float64.of_Z 3) None.

(** ** The API key of the application ([app/parameters.py]) *)

(** [os.getenv(name, default)] on the process environment, a mapping from
    names to values: the value of [name], [default] when it is not set. *)
Definition os_getenv (environ : string -> option string) (name default : string)
  : string :=
  match environ name with
  | Some v => v
  | None => default
  end.

Definition placeholder_api_key : string :=
  "ADD_YOUR_OPENAI_API_KEY_HERE_AS_A_STRING_VARIABLE".

(** The module-level constant [OPENAI_API_KEY], read when the module is
    loaded. *)
Definition OPENAI_API_KEY (environ : string -> option string) : string :=
  os_getenv environ "OPENAI_API_KEY" placeholder_api_key.

(** [s.startswith(p)] *)
Definition startswith (s p : string) : bool := String.prefix p s.

(** [test_api_key()], for the value of the constant: the line it prints
    and the boolean it returns. *)
Definition test_api_key (key : string) : string * bool :=
  if String.eqb key placeholder_api_key then
    ("❌ API key not set - using default placeholder", false)
  else if startswith key "sk-" then
    ("✅ API key appears to be properly formatted", true)
  else
    ("⚠️ API key is set but may not be valid format", false).

(** ** Vocabulary of the statements *)

(** [c * n] for a one-character string. *)
Fixpoint repeat_char (c : ascii) (n : nat) : string :=
  match n with
  | O => EmptyString
  | S n' => String c (repeat_char c n')
  end.

(** The character [random.choice(alphabet)] makes of a raw draw. *)
Definition pick (raw : Z) : ascii :=
  match String.get (Z.to_nat (raw mod Z.of_nat (String.length alphabet))) alphabet with
  | Some c => c
  | None => Ascii.zero
  end.

(** The identifier made of the [n] draws from position [pos] on. *)
Fixpoint id_from (env : Env) (pos n : nat) : string :=
  match n with
  | O => EmptyString
  | S n' => String (pick (draws env pos)) (id_from env (S pos) n')
  end.

(** The state after [k] more draws. *)
Definition advance_rng (k : nat) (s : State) : State :=
  mkState (total_requests s) (rng_pos s + k) (net_pos s) (clk_pos s) (trace s).

(** Upper-case letters, lower-case letters and digits, by character code. *)
Definition is_alnum (c : ascii) : bool :=
  let n := N_of_ascii c in
  (((97 <=? n) && (n <=? 122)) || ((65 <=? n) && (n <=? 90))
   || ((48 <=? n) && (n <=? 57)))%N.

(** The indices of the alphabet at which the symbol [c] stands. *)
Definition indices_of (c : ascii) : list nat :=
  filter (fun j => match String.get j alphabet with
                   | Some a => Ascii.eqb a c
                   | None => false
                   end)
         (seq 0 (String.length alphabet)).

Fixpoint distinct (l : list ascii) : bool :=
  match l with
  | [] => true
  | a :: r => negb (existsb (Ascii.eqb a) r) && distinct r
  end.

Definition landing_request (base_url interview_id session_id : string) : Request :=
  mkRequest GET (url_landing base_url interview_id session_id) None.

Definition turn_request (base_url interview_id session_id : string) (t : Z) : Request :=
  mkRequest POST (url_next base_url) (Some (turn_payload session_id interview_id t)).

(** The test that guards the pause after turn [t]. *)
Definition pause_condition (num_turns : Z) (max_delay : float) (t : Z) : bool :=
  (t <? num_turns - 1) && Float64.gtb max_delay Float64.zero.

(** The number of requests of a trace that were answered, which is the
    number of times [total_requests] was incremented. *)
Fixpoint replied (tr : list event) : Z :=
  match tr with
  | [] => 0
  | Exchange _ (Reply _ _) :: rest => 1 + replied rest
  | _ :: rest => replied rest
  end.

(** The shape of what a session does during its turns. *)
Section Shape.

Variable env : Env.
Variables base_url interview_id session_id : string.
Variable num_turns : Z.
Variables min_delay max_delay : float.

(** One turn: the events it adds to the trace and how it ends. *)
Inductive turn_block (t : Z) : list event -> outcome unit -> Prop :=
| tb_transport :
    turn_block t
      [Exchange (turn_request base_url interview_id session_id t) TransportFailure]
      (Raised (RequestException (turn_request base_url interview_id session_id t)))
| tb_status st body :
    is_error_status st = true ->
    turn_block t
      [Exchange (turn_request base_url interview_id session_id t) (Reply st body)]
      (Raised (HTTPError
                 (mkResponse st body
                    (turn_request base_url interview_id session_id t))))
| tb_non_json st body :
    is_error_status st = false ->
    json_ok env body = false ->
    turn_block t
      [Exchange (turn_request base_url interview_id session_id t) (Reply st body);
       JsonCall body]
      (Raised (RuntimeError (non_json_message session_id body)))
| tb_no_pause st body :
    is_error_status st = false ->
    json_ok env body = true ->
    pause_condition num_turns max_delay t = false ->
    turn_block t
      [Exchange (turn_request base_url interview_id session_id t) (Reply st body);
       JsonCall body]
      (Returned tt)
| tb_pause st body p :
    is_error_status st = false ->
    json_ok env body = true ->
    pause_condition num_turns max_delay t = true ->
    sleep_check env
      (uniform_of min_delay max_delay (random_unit (draws env p))) = None ->
    turn_block t
      [Exchange (turn_request base_url interview_id session_id t) (Reply st body);
       JsonCall body;
       SleepCall (uniform_of min_delay max_delay (random_unit (draws env p)))]
      (Returned tt)
| tb_pause_refused st body p e :
    is_error_status st = false ->
    json_ok env body = true ->
    pause_condition num_turns max_delay t = true ->
    sleep_check env
      (uniform_of min_delay max_delay (random_unit (draws env p))) = Some e ->
    turn_block t
      [Exchange (turn_request base_url interview_id session_id t) (Reply st body);
       JsonCall body;
       SleepCall (uniform_of min_delay max_delay (random_unit (draws env p)))]
      (Raised e).

(** The turns [i], [i+1], ..., [i+n-1]: completed turns follow one
    another until all are done or one fails. *)
Inductive turns_run : Z -> nat -> list event -> outcome unit -> Prop :=
| tr_done i : turns_run i 0 [] (Returned tt)
| tr_step i n blk rest o :
    turn_block i blk (Returned tt) ->
    turns_run (i + 1) n rest o ->
    turns_run i (S n) (blk ++ rest) o
| tr_abort i n blk e :
    turn_block i blk (Raised e) ->
    turns_run i (S n) blk (Raised e).

End Shape.

(** The requests of the turns [i], [i+1], ..., [i+n-1]. *)
Fixpoint requests_from (base_url interview_id session_id : string)
    (i : Z) (n : nat) : list Request :=
  match n with
  | O => []
  | S n' =>
      turn_request base_url interview_id session_id i
        :: requests_from base_url interview_id session_id (i + 1) n'
  end.

(** The requests sent in a trace, in order. *)
Fixpoint sent_requests (tr : list event) : list Request :=
  match tr with
  | [] => []
  | Exchange req _ :: rest => req :: sent_requests rest
  | _ :: rest => sent_requests rest
  end.

(** The answer to the landing request is a success: it has no error
    status (its body is not looked at). *)
Definition landing_ok (r : reply) : bool :=
  match r with
  | TransportFailure => false
  | Reply st _ => negb (is_error_status st)
  end.

(** The [k]-th call of a session, counted from 0, succeeds with the reply
    [r]: call 0 is the landing request, the others are turn requests,
    which need a good reply. *)
Definition call_succeeds (env : Env) (k : nat) (r : reply) : bool :=
  match k with
  | O => landing_ok r
  | S _ => good_reply env r
  end.

(** The service returns success on every call of the session. *)
Definition service_succeeds (env : Env) : Prop :=
  forall k, call_succeeds env k (replies env k) = true.

(** [time.sleep] accepts every pause the session can ask for. *)
Definition pauses_accepted (env : Env) (min_delay max_delay : float) : Prop :=
  Float64.gtb max_delay Float64.zero = true ->
  forall p,
    sleep_check env (uniform_of min_delay max_delay (random_unit (draws env p)))
    = None.

(** The request count a future holds, 0 for a failed one. *)
Definition requests_of (f : option future) : Z :=
  match f with
  | Some (Returned (reqs, _)) => reqs
  | _ => 0
  end.

(** The sum of the request counts of the futures listed in [l]. *)
Fixpoint sum_requests (futures : list future) (l : list nat) : Z :=
  match l with
  | [] => 0
  | i :: rest => requests_of (nth_error futures i) + sum_requests futures rest
  end.

(** The session of task [i] of a batch. *)
Definition session_of (args : Args) (envs : nat -> Env) (i : nat)
  : outcome (Z * float) * State :=
  run_single_interview (a_base_url args) (a_interview_id args) (a_turns args)
    (a_min_delay args) (a_max_delay args) (envs i) init_state.

(** ** More vocabulary: schedules, calls, and the futures of a batch *)

(** The requests of a whole session, in the order the driver sends them. *)
Definition schedule (base_url interview_id session_id : string) (num_turns : Z)
  : list Request :=
  landing_request base_url interview_id session_id
    :: map (turn_request base_url interview_id session_id) (py_range num_turns).

(** The trace holds a request that got no answer. *)
Definition has_transport_failure (tr : list event) : bool :=
  existsb (fun ev => match ev with
                     | Exchange _ TransportFailure => true
                     | _ => false
                     end) tr.

(** The bodies [resp.json()] was called on. *)
Fixpoint json_calls (tr : list event) : list string :=
  match tr with
  | [] => []
  | JsonCall body :: rest => body :: json_calls rest
  | _ :: rest => json_calls rest
  end.

(** The bodies of the answers to turn requests that came without an error
    status. *)
Fixpoint accepted_turn_bodies (tr : list event) : list string :=
  match tr with
  | [] => []
  | Exchange req (Reply st body) :: rest =>
      match req_method req with
      | POST =>
          if is_error_status st then accepted_turn_bodies rest
          else body :: accepted_turn_bodies rest
      | GET => accepted_turn_bodies rest
      end
  | _ :: rest => accepted_turn_bodies rest
  end.

(** The lengths of the pauses asked of [time.sleep]. *)
Fixpoint sleep_calls (tr : list event) : list float :=
  match tr with
  | [] => []
  | SleepCall d :: rest => d :: sleep_calls rest
  | _ :: rest => sleep_calls rest
  end.

(** No future listed in [l] holds an exception. *)
Definition none_failed (futures : list future) (l : list nat) : Prop :=
  forall i e, In i l -> nth_error futures i <> Some (Raised e).

(** The size of the worker pool [main] asks for. *)
Definition pool_size (args : Args) : Z :=
  py_or (a_max_workers args) (a_users args).


(** * Properties *)

(** ** The model at work *)

(** Two turns on a healthy service: three requests, one pause, between
    the turns. *)
Example healthy_session_two_turns :
  let run :=
    run_single_interview "http://127.0.0.1:8000/" "STOCK_MARKET" 2
      (Float64.of_Z 1) (Float64.of_Z 3) healthy_env init_state in
  fst run = Returned (3, Float64.of_Z 1)
  /\ map is_exchange (trace (snd run)) = [true; true; false; false; true; false]
  /\ map is_sleep (trace (snd run)) = [false; false; false; true; false; false]
  /\ sent_requests (trace (snd run))
     = [mkRequest GET "http://127.0.0.1:8000/STOCK_MARKET/ahovCJQX4bipwDKR" None;
        mkRequest POST "http://127.0.0.1:8000/next"
          (Some (mkPayload "ahovCJQX4bipwDKR" "STOCK_MARKET" "Dummy answer turn 0"));
        mkRequest POST "http://127.0.0.1:8000/next"
          (Some (mkPayload "ahovCJQX4bipwDKR" "STOCK_MARKET" "Dummy answer turn 1"))].
Proof. vm_compute. repeat split. Qed.

(** A negative number of turns is an empty range: the landing request
    alone. *)
Example negative_turns_session :
  fst (run_single_interview "http://127.0.0.1:8000" "STOCK_MARKET" (-1)
         (Float64.of_Z 1) (Float64.of_Z 3) healthy_env init_state)
  = Returned (1, Float64.of_Z 1).
Proof. vm_compute. reflexivity. Qed.

(** A pause that [time.sleep] refuses ends the session. *)
Example refused_pause_session :
  fst (run_single_interview "http://127.0.0.1:8000" "STOCK_MARKET" 2
         (Float64.of_Z (-5)) (Float64.of_Z 1) healthy_env init_state)
  = Raised (ValueError "sleep length must be non-negative").
Proof. vm_compute. reflexivity. Qed.

(** No user and no pool size given: the pool cannot be created. *)
Example empty_batch :
  main (mkArgs "http://127.0.0.1:8000" "STOCK_MARKET" 0 10
          (Float64.of_Z 1) (Float64.of_Z 3) None)
       (fun _ => healthy_env) [] sample_wall
  = (Raised (ValueError "max_workers must be greater than 0"), 0).
Proof. vm_compute. reflexivity. Qed.

(** By default the pool has one worker per user. *)
Example default_pool_size :
  py_or (a_max_workers default_args) (a_users default_args) = 20
  /\ py_or (Some 0) 20 = 20
  /\ py_or (Some 4) 20 = 4.
Proof. repeat split. Qed.

Example throughput_examples :
  throughput 100 (Float64.of_Z 10) = Returned (Float64.of_Z 10)
  /\ throughput 100 Float64.zero = Returned Float64.zero
  /\ throughput 100 (S754_zero true) = Returned Float64.zero
  /\ throughput 100 S754_nan = Returned Float64.zero
  /\ throughput 100 (Float64.of_Z (-2)) = Returned Float64.zero.
Proof. vm_compute. repeat split. Qed.

(** The two ends of the default pause: the smallest draw gives
    [min_delay]; the largest draw is below 1 and gives, after rounding,
    [max_delay] itself. *)
Example default_pause_ends :
  uniform_of (Float64.of_Z 1) (Float64.of_Z 3) (random_unit 0) = Float64.of_Z 1
  /\ Float64.ltb (random_unit (2 ^ 53 - 1)) (Float64.of_Z 1) = true
  /\ uniform_of (Float64.of_Z 1) (Float64.of_Z 3) (random_unit (2 ^ 53 - 1))
     = Float64.of_Z 3
  /\ cpython_sleep_check
       (uniform_of (Float64.of_Z 1) (Float64.of_Z 3) (random_unit (2 ^ 53 - 1)))
     = None.
Proof. vm_compute. repeat split. Qed.
(** ** Strings and URLs *)

Lemma rstrip_repeat_char (c : ascii) (chars : string) (n : nat) :
  char_in c chars = true -> rstrip (repeat_char c n) chars = EmptyString.
Proof.
  intros Hc. induction n as [|n IH]; simpl.
  - reflexivity.
  - rewrite IH, Hc. reflexivity.
Qed.

Lemma rstrip_app_repeat (s chars : string) (c : ascii) (n : nat) :
  char_in c chars = true ->
  rstrip (s ++ repeat_char c n) chars = rstrip s chars.
Proof.
  intros Hc. induction s as [|a s IH]; simpl.
  - apply rstrip_repeat_char, Hc.
  - rewrite IH. reflexivity.
Qed.

Lemma rstrip_idempotent (s chars : string) :
  rstrip (rstrip s chars) chars = rstrip s chars.
Proof.
  induction s as [|a s IH]; simpl.
  - reflexivity.
  - destruct (rstrip s chars) as [|b r] eqn:E.
    + destruct (char_in a chars) eqn:Ha; simpl.
      * reflexivity.
      * rewrite Ha. reflexivity.
    + change (rstrip (String a (String b r)) chars) with
        (match rstrip (String b r) chars with
         | EmptyString =>
             if char_in a chars then EmptyString else String a EmptyString
         | x => String a x
         end).
      rewrite IH. reflexivity.
Qed.

Lemma slash_in_slash : char_in "/" "/" = true.
Proof. reflexivity. Qed.

(** C10. The landing and turn URLs built from a base URL do not depend on
    the ['/'] characters that end it: a base URL followed by any number of
    ['/'] gives the same two URLs, hence the same session, as the base URL
    itself; stripping is idempotent, so a base URL that is already
    stripped is left as it is. *)
Theorem trailing_slashes_ignored (base_url interview_id : string) (k : nat) :
  (forall session_id,
      url_landing (base_url ++ repeat_char "/" k) interview_id session_id
      = url_landing base_url interview_id session_id)
  /\ url_next (base_url ++ repeat_char "/" k) = url_next base_url
  /\ rstrip (rstrip base_url "/") "/" = rstrip base_url "/"
  /\ (forall session_id,
         url_landing (rstrip base_url "/") interview_id session_id
         = url_landing base_url interview_id session_id)
  /\ url_next (rstrip base_url "/") = url_next base_url
  /\ (forall num_turns min_delay max_delay env s,
         run_single_interview (base_url ++ repeat_char "/" k) interview_id
           num_turns min_delay max_delay env s
         = run_single_interview base_url interview_id
             num_turns min_delay max_delay env s).
Proof.
  pose proof (rstrip_app_repeat base_url "/" "/" k slash_in_slash) as Hk.
  pose proof (rstrip_idempotent base_url "/") as Hi.
  repeat split; intros;
    unfold run_single_interview, turn_body, url_landing, url_next;
    try rewrite Hk; try rewrite Hi; reflexivity.
Qed.

(** ** The identifier generator *)

Lemma get_nth_error (s : string) (i : nat) :
  String.get i s = nth_error (list_ascii_of_string s) i.
Proof.
  revert i. induction s as [|a s IH]; intros [|i]; simpl; auto.
Qed.

Lemma length_list_ascii (s : string) :
  List.length (list_ascii_of_string s) = String.length s.
Proof.
  induction s as [|a s IH]; simpl; congruence.
Qed.

Lemma char_in_In (c : ascii) (s : string) :
  char_in c s = true <-> In c (list_ascii_of_string s).
Proof.
  unfold char_in. rewrite existsb_exists. split.
  - intros [x [Hx E]]. apply Ascii.eqb_eq in E. now subst.
  - intros H. exists c. split; [assumption | apply Ascii.eqb_refl].
Qed.

Lemma distinct_NoDup (l : list ascii) : distinct l = true -> NoDup l.
Proof.
  induction l as [|a r IH]; simpl; intros H.
  - constructor.
  - apply andb_true_iff in H as [Ha Hr]. constructor.
    + intros Hin. apply negb_true_iff in Ha.
      assert (existsb (Ascii.eqb a) r = true) as E.
      { apply existsb_exists. exists a. split; [assumption | apply Ascii.eqb_refl]. }
      congruence.
    + apply IH, Hr.
Qed.

Lemma alphabet_length : String.length alphabet = 62%nat.
Proof. reflexivity. Qed.

Lemma alphabet_NoDup : NoDup (list_ascii_of_string alphabet).
Proof. apply distinct_NoDup. vm_compute. reflexivity. Qed.

Lemma alphabet_is_alnum (c : ascii) : char_in c alphabet = is_alnum c.
Proof.
  destruct c as [[] [] [] [] [] [] [] []]; vm_compute; reflexivity.
Qed.

Lemma get_in_range (s : string) (i : nat) :
  (i < String.length s)%nat -> exists c, String.get i s = Some c.
Proof.
  intros H. rewrite get_nth_error.
  destruct (nth_error (list_ascii_of_string s) i) as [c|] eqn:E.
  - now exists c.
  - apply nth_error_None in E. rewrite length_list_ascii in E. lia.
Qed.

Lemma pick_get (raw : Z) :
  String.get (Z.to_nat (raw mod 62)) alphabet = Some (pick raw).
Proof.
  unfold pick. rewrite alphabet_length. change (Z.of_nat 62) with 62.
  destruct (get_in_range alphabet (Z.to_nat (raw mod 62))) as [c Hc].
  - rewrite alphabet_length.
    pose proof (Z.mod_pos_bound raw 62 ltac:(lia)). lia.
  - rewrite Hc. reflexivity.
Qed.

Lemma pick_in_alphabet (raw : Z) : char_in (pick raw) alphabet = true.
Proof.
  apply char_in_In. pose proof (pick_get raw) as H.
  rewrite get_nth_error in H. eapply nth_error_In, H.
Qed.

Lemma random_choice_alphabet (env : Env) (s : State) :
  random_choice alphabet env s
  = (Returned (pick (draws env (rng_pos s))), advance_rng 1 s).
Proof.
  unfold random_choice. rewrite alphabet_length.
  change (Nat.eqb 62 0) with false.
  unfold bind, randbelow, bind, next_draw, ret.
  change (Z.of_nat 62) with 62. cbv beta iota.
  rewrite pick_get.
  unfold advance_rng. rewrite Nat.add_1_r. reflexivity.
Qed.

Lemma join_chars_alphabet (n : nat) (env : Env) (s : State) :
  join_chars n (random_choice alphabet) env s
  = (Returned (id_from env (rng_pos s) n), advance_rng n s).
Proof.
  revert s. induction n as [|n IH]; intros s; simpl.
  - unfold ret, advance_rng. rewrite Nat.add_0_r. destruct s; reflexivity.
  - unfold bind at 1. rewrite random_choice_alphabet.
    unfold bind at 1. rewrite IH. unfold ret, advance_rng. simpl.
    rewrite Nat.add_1_r, Nat.add_succ_r. reflexivity.
Qed.

Lemma py_range_length (n : Z) : List.length (py_range n) = Z.to_nat n.
Proof. unfold py_range. now rewrite length_map, length_seq. Qed.

Lemma random_session_id_run (n : Z) (env : Env) (s : State) :
  random_session_id n env s
  = (Returned (id_from env (rng_pos s) (Z.to_nat n)), advance_rng (Z.to_nat n) s).
Proof.
  unfold random_session_id. rewrite py_range_length. apply join_chars_alphabet.
Qed.

Lemma id_from_length (env : Env) (pos n : nat) :
  String.length (id_from env pos n) = n.
Proof.
  revert pos. induction n as [|n IH]; intros pos; simpl; auto.
Qed.

Lemma id_from_get (env : Env) (pos n i : nat) (c : ascii) :
  String.get i (id_from env pos n) = Some c ->
  (i < n)%nat /\ c = pick (draws env (pos + i)).
Proof.
  revert pos i. induction n as [|n IH]; intros pos i; simpl.
  - destruct i; discriminate.
  - destruct i as [|i].
    + intros [= <-]. rewrite Nat.add_0_r. split; [lia | reflexivity].
    + intros H. apply IH in H as [Hi Hc]. split; [lia|].
      rewrite Hc. f_equal. f_equal. lia.
Qed.

Lemma alphabet_index_unique (j j' : nat) (c : ascii) :
  String.get j alphabet = Some c -> String.get j' alphabet = Some c -> j = j'.
Proof.
  rewrite !get_nth_error. intros H H'.
  pose proof alphabet_NoDup as ND.
  rewrite NoDup_nth_error in ND. apply ND.
  - apply nth_error_Some. congruence.
  - congruence.
Qed.

Lemma indices_of_count (c : ascii) :
  List.length (indices_of c) = if is_alnum c then 1%nat else 0%nat.
Proof.
  destruct c as [[] [] [] [] [] [] [] []]; vm_compute; reflexivity.
Qed.

(** C8. For every requested length [n] (a length: [0 <= n]; the default is
    16), [random_session_id] returns a string of exactly [n] characters.
    Each character is an upper-case letter, a lower-case letter or a digit:
    it is the symbol of the alphabet at the index [randbelow 62] of its own
    draw. The alphabet has 62 symbols, and of the 62 indices exactly one
    gives a letter or digit [c] (none gives another character): an index
    drawn uniformly gives each symbol one chance in 62. *)
Theorem random_session_id_alphanumeric (n : Z) (env : Env) (s : State) :
  0 <= n ->
  default_length = 16
  /\ exists sid,
      random_session_id n env s = (Returned sid, advance_rng (Z.to_nat n) s)
      /\ Z.of_nat (String.length sid) = n
      /\ (forall i c, String.get i sid = Some c ->
            is_alnum c = true
            /\ String.get (Z.to_nat (draws env (rng_pos s + i) mod 62)) alphabet
               = Some c)
      /\ String.length alphabet = 62%nat
      /\ (forall c, List.length (indices_of c)
                    = if is_alnum c then 1%nat else 0%nat)
      /\ (forall j j' c, String.get j alphabet = Some c ->
            String.get j' alphabet = Some c -> j = j').
Proof.
  intros Hn. split; [reflexivity|].
  exists (id_from env (rng_pos s) (Z.to_nat n)).
  split; [apply random_session_id_run|].
  split; [rewrite id_from_length; lia|].
  split.
  { intros i c H. apply id_from_get in H as [_ ->]. split.
    - rewrite <- alphabet_is_alnum. apply pick_in_alphabet.
    - apply pick_get. }
  split; [apply alphabet_length|].
  split; [apply indices_of_count | apply alphabet_index_unique].
Qed.

Lemma random_session_id_alphanumeric_witness :
  0 <= 16
  /\ exists sid,
      random_session_id 16 healthy_env init_state
      = (Returned sid, advance_rng 16 init_state)
      /\ Z.of_nat (String.length sid) = 16.
Proof.
  split; [lia|].
  destruct (random_session_id_alphanumeric 16 healthy_env init_state ltac:(lia))
    as [_ [sid [H1 [H2 _]]]].
  exists sid. split; assumption.
Defined.

(** ** The session driver *)

Lemma replied_app (tr1 tr2 : list event) :
  replied (tr1 ++ tr2) = replied tr1 + replied tr2.
Proof.
  induction tr1 as [|ev tr1 IH]; cbn [app replied].
  - reflexivity.
  - destruct ev as [req [|st body]| |]; rewrite IH; lia.
Qed.

(** What one turn does to the state. *)
Lemma turn_body_block (base_url interview_id session_id : string)
    (num_turns : Z) (min_delay max_delay : float) (t : Z)
    (env : Env) (s s' : State) (o : outcome unit) :
  turn_body base_url interview_id session_id num_turns min_delay max_delay t env s
  = (o, s') ->
  exists blk,
    turn_block env base_url interview_id session_id num_turns min_delay max_delay
      t blk o
    /\ trace s' = trace s ++ blk
    /\ total_requests s' = total_requests s + replied blk
    /\ clk_pos s' = clk_pos s
    /\ (o = Returned tt -> net_pos s' = S (net_pos s))
    /\ exists r, blk = Exchange (turn_request base_url interview_id session_id t) r
                         :: tl blk
                 /\ r = replies env (net_pos s).
Proof.
  unfold turn_body, requests_post, http_exchange, bind, get_total_requests,
    set_total_requests, raise_for_status, try_except, resp_json, log, bind,
    random_uniform, random_random, next_draw, time_sleep, log, bind, ret, raise.
  fold (turn_request base_url interview_id session_id t).
  fold (pause_condition num_turns max_delay t).
  simpl.
  destruct (replies env (net_pos s)) as [|st body] eqn:Er.
  - intros [= <- <-]. eexists; split; [apply tb_transport|]. simpl.
    repeat split; try lia; try discriminate. eexists; split; reflexivity.
  - simpl. destruct (is_error_status st) eqn:Est; simpl.
    + intros [= <- <-]. eexists; split; [apply tb_status; assumption|]. simpl.
      repeat split; try lia; try discriminate. eexists; split; reflexivity.
    + destruct (json_ok env body) eqn:Ej; simpl.
      * destruct (pause_condition num_turns max_delay t) eqn:Ep; simpl.
        -- destruct (sleep_check env _) as [e|] eqn:Es; intros [= <- <-].
           ++ eexists; split; [eapply tb_pause_refused; eassumption|]. simpl.
              rewrite <- !app_assoc. simpl.
              repeat split; try lia; try discriminate.
              eexists; split; reflexivity.
           ++ eexists; split; [eapply tb_pause; eassumption|]. simpl.
              rewrite <- !app_assoc. simpl.
              repeat split; try lia. eexists; split; reflexivity.
        -- intros [= <- <-].
           eexists; split; [eapply tb_no_pause; eassumption|]. simpl.
           rewrite <- !app_assoc. simpl.
           repeat split; try lia. eexists; split; reflexivity.
      * intros [= <- <-].
        eexists; split; [eapply tb_non_json; eassumption|]. simpl.
        rewrite <- !app_assoc. simpl.
        repeat split; try lia; try discriminate. eexists; split; reflexivity.
Qed.

(** What the loop over the turns [i], ..., [i+n-1] does to the state. *)
Lemma turns_loop_run (base_url interview_id session_id : string)
    (num_turns : Z) (min_delay max_delay : float) (env : Env) (n : nat) :
  forall (i : nat) (s s' : State) (o : outcome unit),
    for_each (map Z.of_nat (seq i n))
      (turn_body base_url interview_id session_id num_turns min_delay max_delay)
      env s = (o, s') ->
    exists new,
      turns_run env base_url interview_id session_id num_turns min_delay max_delay
        (Z.of_nat i) n new o
      /\ trace s' = trace s ++ new
      /\ total_requests s' = total_requests s + replied new
      /\ clk_pos s' = clk_pos s.
Proof.
  induction n as [|n IH]; intros i s s' o; simpl.
  - unfold ret. intros [= <- <-]. exists []. rewrite app_nil_r.
    repeat split; [constructor | simpl; lia].
  - unfold bind at 1.
    destruct (turn_body _ _ _ _ _ _ _ env s) as [o1 s1] eqn:E1.
    apply turn_body_block in E1 as (blk & Hb & Ht & Hc & Hk & _).
    destruct o1 as [[]|e].
    + intros H. apply IH in H as (new & Hr & Ht' & Hc' & Hk').
      exists (blk ++ new). repeat split.
      * apply tr_step; [assumption|].
        replace (Z.of_nat i + 1) with (Z.of_nat (S i)) by lia. assumption.
      * rewrite Ht', Ht, app_assoc. reflexivity.
      * rewrite Hc', Hc, replied_app. lia.
      * congruence.
    + intros [= <- <-]. exists blk. repeat split; try assumption.
      apply tr_abort. assumption.
Qed.

(** The shape of a whole session. *)
Lemma run_single_interview_shape (base_url interview_id : string)
    (num_turns : Z) (min_delay max_delay : float) (env : Env)
    (s s' : State) (o : outcome (Z * float)) :
  run_single_interview base_url interview_id num_turns min_delay max_delay env s
  = (o, s') ->
  let sid := id_from env (rng_pos s) 16 in
  let req := landing_request base_url interview_id sid in
  match replies env (net_pos s) with
  | TransportFailure =>
      o = Raised (RequestException req)
      /\ trace s' = trace s ++ [Exchange req TransportFailure]
      /\ total_requests s' = 0
  | Reply st body =>
      if is_error_status st then
        o = Raised (HTTPError (mkResponse st body req))
        /\ trace s' = trace s ++ [Exchange req (Reply st body)]
        /\ total_requests s' = 1
      else
        exists new lo,
          turns_run env base_url interview_id sid num_turns min_delay max_delay
            0 (Z.to_nat num_turns) new lo
          /\ trace s' = trace s ++ Exchange req (Reply st body) :: new
          /\ total_requests s' = 1 + replied new
          /\ o = match lo with
                 | Returned _ =>
                     Returned (1 + replied new,
                               Float64.sub (clock env (S (clk_pos s)))
                                           (clock env (clk_pos s)))
                 | Raised e => Raised e
                 end
  end.
Proof.
  unfold run_single_interview. unfold bind at 1.
  rewrite random_session_id_run. change (Z.to_nat default_length) with 16%nat.
  set (sid := id_from env (rng_pos s) 16).
  unfold bind at 1, time_time at 1. unfold bind at 1, set_total_requests at 1.
  unfold bind at 1, requests_get, http_exchange.
  fold (landing_request base_url interview_id sid).
  cbn [advance_rng total_requests rng_pos net_pos clk_pos trace].
  destruct (replies env (net_pos s)) as [|st body] eqn:Er.
  - intros [= <- <-]. cbn. auto.
  - unfold bind at 1, get_total_requests at 1.
    unfold bind at 1, set_total_requests at 1.
    unfold bind at 1, raise_for_status at 1.
    cbn [status_code total_requests rng_pos net_pos clk_pos trace].
    destruct (is_error_status st) eqn:Est.
    + unfold raise. intros [= <- <-]. cbn. auto.
    + unfold ret at 1. unfold bind at 1. unfold py_range.
      match goal with
      | |- context [for_each ?l ?b env ?s0] =>
          destruct (for_each l b env s0) as [lo s1] eqn:El
      end.
      apply turns_loop_run in El as (new & Hr & Ht & Hc & Hk).
      cbn [total_requests trace clk_pos] in Ht, Hc, Hk.
      destruct lo as [[]|e].
      * unfold bind, time_time, get_total_requests, ret.
        intros [= <- <-]. exists new, (Returned tt).
        cbn [total_requests trace]. rewrite Ht, Hc, Hk, <- app_assoc.
        repeat split; try assumption; reflexivity || (f_equal; lia).
      * intros [= <- <-]. exists new, (Raised e).
        rewrite Ht, Hc, <- app_assoc. repeat split; try assumption; reflexivity || lia.
Qed.

(** *** Turn messages name their turn *)

Lemma str_of_int_inj (a b : Z) : str_of_int a = str_of_int b -> a = b.
Proof.
  unfold str_of_int. intros H.
  assert (forall z, NilZero.int_of_string (NilZero.string_of_int (Z.to_int z))
                    = Some (Z.to_int z)) as Hisi.
  { intros z. apply NilZero.isi; destruct z; simpl; intros [= E];
      try discriminate; eapply DecimalPos.Unsigned.to_uint_nonnil; eassumption. }
  apply (f_equal NilZero.int_of_string) in H. rewrite !Hisi in H.
  injection H as H. apply DecimalZ.to_int_inj, H.
Qed.

Lemma turn_message_inj (a b : Z) : turn_message a = turn_message b -> a = b.
Proof.
  unfold turn_message. simpl. intros [= H]. apply str_of_int_inj, H.
Qed.

Lemma is_turn_request_iff (base_url interview_id session_id : string) (t i : Z) :
  is_turn_request t (turn_request base_url interview_id session_id i) = true
  <-> t = i.
Proof.
  unfold is_turn_request, turn_request, turn_payload. cbn [req_method req_json p_user_message].
  rewrite String.eqb_eq. split.
  - intros H. symmetry. apply turn_message_inj, H.
  - intros ->. reflexivity.
Qed.

Lemma is_turn_request_landing (base_url interview_id session_id : string) (t : Z) :
  is_turn_request t (landing_request base_url interview_id session_id) = false.
Proof. reflexivity. Qed.

(** *** Counting requests *)

Lemma turn_block_returned (env : Env) (base_url interview_id session_id : string)
    (num_turns : Z) (min_delay max_delay : float) (t : Z) (blk : list event) :
  turn_block env base_url interview_id session_id num_turns min_delay max_delay
    t blk (Returned tt) ->
  exists st body rest,
    blk = Exchange (turn_request base_url interview_id session_id t) (Reply st body)
            :: JsonCall body :: rest
    /\ good_reply env (Reply st body) = true
    /\ replied blk = 1
    /\ exchanges blk
       = [Exchange (turn_request base_url interview_id session_id t) (Reply st body)]
    /\ (rest = [] /\ pause_condition num_turns max_delay t = false
        \/ pause_condition num_turns max_delay t = true
           /\ exists p,
               rest = [SleepCall (uniform_of min_delay max_delay
                                    (random_unit (draws env p)))]).
Proof.
  intros H. inversion H; subst; exists st, body; eexists;
    (split; [reflexivity|]); cbn [good_reply];
    match goal with
    | H1 : is_error_status _ = false, H2 : json_ok _ _ = true |- _ =>
        rewrite H1, H2
    end; repeat split; eauto.
Qed.

Lemma turns_run_returned_replied (env : Env)
    (base_url interview_id session_id : string)
    (num_turns : Z) (min_delay max_delay : float)
    (i : Z) (n : nat) (new : list event) (o : outcome unit) :
  turns_run env base_url interview_id session_id num_turns min_delay max_delay
    i n new o ->
  o = Returned tt ->
  replied new = Z.of_nat n /\ List.length (exchanges new) = n.
Proof.
  induction 1 as [i | i n blk rest o Hb Hr IH | i n blk e Hb]; intros Ho.
  - split; reflexivity.
  - destruct (IH Ho) as [IH1 IH2].
    apply turn_block_returned in Hb as (st & body & tl & -> & _ & Hc & Hx & _).
    unfold exchanges in *. rewrite replied_app, filter_app, length_app, Hc, Hx, IH1, IH2.
    split; [lia | simpl; lia].
  - discriminate.
Qed.

Lemma sent_requests_app (tr1 tr2 : list event) :
  sent_requests (tr1 ++ tr2) = sent_requests tr1 ++ sent_requests tr2.
Proof.
  induction tr1 as [|[req r| |] tr1 IH]; simpl; congruence.
Qed.

Lemma sent_requests_length (tr : list event) :
  List.length (sent_requests tr) = List.length (exchanges tr).
Proof.
  induction tr as [|[req r| |] tr IH]; simpl; congruence.
Qed.

Lemma requests_from_range (base_url interview_id session_id : string) (n : nat) :
  forall i : nat,
    requests_from base_url interview_id session_id (Z.of_nat i) n
    = map (turn_request base_url interview_id session_id)
          (map Z.of_nat (seq i n)).
Proof.
  induction n as [|n IH]; intros i; simpl.
  - reflexivity.
  - f_equal. rewrite <- IH. f_equal. lia.
Qed.

(** *** A turn that fails *)

(** What a block that raises looks like. *)
Lemma turn_block_raised (env : Env) (base_url interview_id session_id : string)
    (num_turns : Z) (min_delay max_delay : float) (t : Z) (blk : list event)
    (e : exn) :
  turn_block env base_url interview_id session_id num_turns min_delay max_delay
    t blk (Raised e) ->
  exists r rest,
    blk = Exchange (turn_request base_url interview_id session_id t) r :: rest
    /\ sent_requests rest = []
    /\ (forall req' r', ~ In (Exchange req' r') rest)
    /\ match r with
       | TransportFailure =>
           e = RequestException (turn_request base_url interview_id session_id t)
           /\ rest = []
       | Reply st body =>
           if is_error_status st then
             e = HTTPError (mkResponse st body
                              (turn_request base_url interview_id session_id t))
             /\ rest = []
           else if json_ok env body then
             pause_condition num_turns max_delay t = true
             /\ exists p,
                 rest = [JsonCall body;
                         SleepCall (uniform_of min_delay max_delay
                                      (random_unit (draws env p)))]
                 /\ sleep_check env
                      (uniform_of min_delay max_delay
                         (random_unit (draws env p))) = Some e
           else
             e = RuntimeError (non_json_message session_id body)
             /\ rest = [JsonCall body]
       end.
Proof.
  intros H. inversion H; subst; do 2 eexists; (split; [reflexivity|]);
    (split; [reflexivity|]);
    (split; [intros req' r' Hin; simpl in Hin; intuition discriminate|]);
    repeat match goal with
           | H : _ = _ |- _ => rewrite H
           end; eauto.
Qed.

Lemma turns_run_status_failure (env : Env)
    (base_url interview_id session_id : string)
    (num_turns : Z) (min_delay max_delay : float)
    (i : Z) (n : nat) (new : list event) (lo : outcome unit)
    (k : Z) (req : Request) (st : Z) (body : string) :
  turns_run env base_url interview_id session_id num_turns min_delay max_delay
    i n new lo ->
  In (Exchange req (Reply st body)) new ->
  is_turn_request k req = true ->
  is_error_status st = true ->
  exists j : nat,
    k = i + Z.of_nat j
    /\ req = turn_request base_url interview_id session_id k
    /\ lo = Raised (HTTPError (mkResponse st body req))
    /\ replied new = Z.of_nat (S j)
    /\ sent_requests new
       = requests_from base_url interview_id session_id i (S j).
Proof.
  induction 1 as [i | i n blk rest o Hb Hr IH | i n blk e Hb];
    intros Hin Hk Hst.
  - destruct Hin.
  - apply turn_block_returned in Hb as (st0 & body0 & tl & -> & Hg & Hc & Hx & Htl).
    assert (In (Exchange req (Reply st body)) rest) as Hin'.
    { apply in_app_or in Hin as [Hin|Hin]; [|assumption]. exfalso.
      destruct Hin as [E|[E|Hin]]; try discriminate.
      - injection E as <- <- <-. cbn [good_reply] in Hg. rewrite Hst in Hg.
        discriminate.
      - destruct Htl as [[-> _]|[_ [p ->]]]; [destruct Hin|].
        destruct Hin as [E|[]]. discriminate. }
    destruct (IH Hin' Hk Hst) as (j & Hkj & Hreq & Hlo & Hrep & Hsent).
    exists (S j). repeat split; try assumption.
    + lia.
    + rewrite replied_app, Hc, Hrep. lia.
    + rewrite sent_requests_app, Hsent.
      assert (sent_requests
                (Exchange (turn_request base_url interview_id session_id i)
                   (Reply st0 body0) :: JsonCall body0 :: tl)
              = [turn_request base_url interview_id session_id i]) as ->.
      { destruct Htl as [[-> _]|[_ [p ->]]]; reflexivity. }
      reflexivity.
  - apply turn_block_raised in Hb as (r & rest & -> & Hs & Hno & Hcase).
    destruct Hin as [E|Hin]; [|exfalso; eapply Hno; eassumption].
    injection E as <- ->. rewrite Hst in Hcase. destruct Hcase as [-> ->].
    apply is_turn_request_iff in Hk. subst k.
    exists 0%nat. repeat split; try reflexivity. lia.
Qed.

(** No more requests than turns. *)
Lemma turns_run_length (env : Env)
    (base_url interview_id session_id : string)
    (num_turns : Z) (min_delay max_delay : float)
    (i : Z) (n : nat) (new : list event) (lo : outcome unit) :
  turns_run env base_url interview_id session_id num_turns min_delay max_delay
    i n new lo ->
  (List.length (exchanges new) <= n)%nat.
Proof.
  induction 1 as [i | i n blk rest o Hb Hr IH | i n blk e Hb].
  - simpl. lia.
  - apply turn_block_returned in Hb as (st & body & tl & _ & _ & _ & Hx & _).
    unfold exchanges in *. rewrite filter_app, length_app, Hx. simpl. lia.
  - apply turn_block_raised in Hb as (r & rest & -> & Hs & _).
    rewrite <- sent_requests_length. cbn [sent_requests]. rewrite Hs. simpl. lia.
Qed.

(** ** Sessions that fail, sessions without turns *)

(** C4. For every session whose landing request gets an error status (one
    on which [raise_for_status] raises: 4xx or 5xx), the session stops at
    once with the [HTTPError] of that response: the landing request is the
    only call it makes, no turn request is sent, and its request counter
    is 1. *)
Theorem landing_failure_aborts (base_url interview_id : string)
    (num_turns : Z) (min_delay max_delay : float) (env : Env)
    (st : Z) (body : string) :
  replies env 0 = Reply st body ->
  is_error_status st = true ->
  exists s',
    run_single_interview base_url interview_id num_turns min_delay max_delay
      env init_state
    = (Raised (HTTPError
                 (mkResponse st body
                    (landing_request base_url interview_id (id_from env 0 16)))),
       s')
    /\ trace s'
       = [Exchange (landing_request base_url interview_id (id_from env 0 16))
            (Reply st body)]
    /\ total_requests s' = 1.
Proof.
  intros Hr Hst.
  destruct (run_single_interview base_url interview_id num_turns min_delay
              max_delay env init_state) as [o s'] eqn:E.
  apply run_single_interview_shape in E. cbn [init_state rng_pos net_pos trace] in E.
  rewrite Hr, Hst in E. destruct E as (-> & Ht & Hc).
  exists s'. repeat split; assumption.
Qed.

Lemma landing_failure_aborts_witness :
  exists s',
    run_single_interview "http://127.0.0.1:8000" "STOCK_MARKET" 10
      (Float64.of_Z 1) (Float64.of_Z 3)
      (scripted_env [Reply 503 "busy"]) init_state
    = (Raised (HTTPError
                 (mkResponse 503 "busy"
                    (landing_request "http://127.0.0.1:8000" "STOCK_MARKET"
                       (id_from (scripted_env [Reply 503 "busy"]) 0 16)))),
       s')
    /\ trace s'
       = [Exchange (landing_request "http://127.0.0.1:8000" "STOCK_MARKET"
                      (id_from (scripted_env [Reply 503 "busy"]) 0 16))
            (Reply 503 "busy")]
    /\ total_requests s' = 1.
Proof.
  apply (landing_failure_aborts "http://127.0.0.1:8000" "STOCK_MARKET" 10
           (Float64.of_Z 1) (Float64.of_Z 3)
           (scripted_env [Reply 503 "busy"]) 503 "busy");
    reflexivity.
Defined.

(** C9. With [num_turns = 0] the session makes exactly one call, the
    landing request: no body is parsed and there is no pause. When the
    landing response has no error status the session returns the request
    count 1. *)
Theorem zero_turns_one_request (base_url interview_id : string)
    (min_delay max_delay : float) (env : Env) :
  exists o s',
    run_single_interview base_url interview_id 0 min_delay max_delay
      env init_state = (o, s')
    /\ trace s'
       = [Exchange (landing_request base_url interview_id (id_from env 0 16))
            (replies env 0)]
    /\ filter is_json_call (trace s') = []
    /\ filter is_sleep (trace s') = []
    /\ o = match replies env 0 with
           | TransportFailure =>
               Raised (RequestException
                         (landing_request base_url interview_id
                            (id_from env 0 16)))
           | Reply st body =>
               if is_error_status st then
                 Raised (HTTPError
                           (mkResponse st body
                              (landing_request base_url interview_id
                                 (id_from env 0 16))))
               else Returned (1, Float64.sub (clock env 1) (clock env 0))
           end.
Proof.
  destruct (run_single_interview base_url interview_id 0 min_delay
              max_delay env init_state) as [o s'] eqn:E.
  exists o, s'. split; [reflexivity|].
  apply run_single_interview_shape in E.
  cbn [init_state rng_pos net_pos clk_pos trace app] in E.
  destruct (replies env 0) as [|st body].
  - destruct E as (-> & -> & _). repeat split.
  - destruct (is_error_status st).
    + destruct E as (-> & -> & _). repeat split.
    + destruct E as (new & lo & Hr & -> & _ & ->).
      change (Z.to_nat 0) with 0%nat in Hr. inversion Hr; subst.
      repeat split.
Qed.

(** C3. For every session in which the request of turn [k] (counted from
    0) gets an error status, the requests sent are the landing request and
    the requests of the turns 0 to [k], that is [k + 2] requests; the
    request counter is [k + 2]; the session ends with the [HTTPError] of
    that response, which carries the request of turn [k], whose message
    names turn [k] and no other turn. *)
Theorem turn_failure_counts (base_url interview_id : string)
    (num_turns : Z) (min_delay max_delay : float) (env : Env)
    (o : outcome (Z * float)) (s' : State)
    (k : Z) (req : Request) (st : Z) (body : string) :
  run_single_interview base_url interview_id num_turns min_delay max_delay
    env init_state = (o, s') ->
  In (Exchange req (Reply st body)) (trace s') ->
  is_turn_request k req = true ->
  is_error_status st = true ->
  0 <= k < num_turns
  /\ req = turn_request base_url interview_id (id_from env 0 16) k
  /\ sent_requests (trace s')
     = landing_request base_url interview_id (id_from env 0 16)
         :: map (turn_request base_url interview_id (id_from env 0 16))
              (py_range (k + 1))
  /\ Z.of_nat (List.length (exchanges (trace s'))) = k + 2
  /\ total_requests s' = k + 2
  /\ o = Raised (HTTPError (mkResponse st body req))
  /\ (forall k', is_turn_request k' req = true -> k' = k).
Proof.
  intros E Hin Hk Hst.
  apply run_single_interview_shape in E.
  cbn [init_state rng_pos net_pos clk_pos trace app] in E.
  set (sid := id_from env 0 16) in *.
  destruct (replies env 0) as [|st0 body0].
  { destruct E as (_ & Ht & _). rewrite Ht in Hin.
    destruct Hin as [Ein|[]]. discriminate. }
  destruct (is_error_status st0).
  { destruct E as (_ & Ht & _). rewrite Ht in Hin.
    destruct Hin as [Ein|[]]. injection Ein as <- _ _.
    rewrite is_turn_request_landing in Hk. discriminate. }
  destruct E as (new & lo & Hr & Ht & Hc & Ho).
  rewrite Ht in Hin. destruct Hin as [Ein|Hin].
  { injection Ein as <- _ _. rewrite is_turn_request_landing in Hk. discriminate. }
  pose proof (turns_run_length _ _ _ _ _ _ _ _ _ _ _ Hr) as Hlen.
  destruct (turns_run_status_failure _ _ _ _ _ _ _ _ _ _ _ _ _ _ _ Hr Hin Hk Hst)
    as (j & Hkj & Hreq & Hlo & Hrep & Hsent).
  assert (k + 1 = Z.of_nat (S j)) as Hk1 by lia.
  assert (Z.of_nat (List.length (exchanges new)) = k + 1) as Hex.
  { rewrite <- sent_requests_length, Hsent.
    change 0 with (Z.of_nat 0). rewrite requests_from_range.
    rewrite !length_map, length_seq. lia. }
  split.
  { rewrite <- sent_requests_length, Hsent in Hlen.
    change 0 with (Z.of_nat 0) in Hlen. rewrite requests_from_range in Hlen.
    rewrite !length_map, length_seq in Hlen. lia. }
  split; [assumption|]. split.
  { rewrite Ht. cbn [sent_requests]. f_equal. rewrite Hsent.
    change 0 with (Z.of_nat 0). rewrite requests_from_range.
    unfold py_range. rewrite Hk1, Nat2Z.id. reflexivity. }
  split.
  { rewrite Ht. unfold exchanges in *. cbn [filter is_exchange List.length]. lia. }
  split; [lia|]. split.
  { rewrite Ho, Hlo. reflexivity. }
  intros k' Hk'. rewrite Hreq in Hk'. apply is_turn_request_iff in Hk'. assumption.
Qed.

Lemma turn_failure_counts_witness :
  let env := scripted_env [Reply 200 "{}"; Reply 200 "{}"; Reply 500 "oops"] in
  let run :=
    run_single_interview "http://127.0.0.1:8000/" "STOCK_MARKET" 5
      (Float64.of_Z 1) (Float64.of_Z 3) env init_state in
  total_requests (snd run) = 1 + 2
  /\ fst run
     = Raised (HTTPError
                 (mkResponse 500 "oops"
                    (turn_request "http://127.0.0.1:8000/" "STOCK_MARKET"
                       (id_from env 0 16) 1))).
Proof.
  intros env run.
  destruct (turn_failure_counts "http://127.0.0.1:8000/" "STOCK_MARKET" 5
              (Float64.of_Z 1) (Float64.of_Z 3) env (fst run) (snd run) 1
              (turn_request "http://127.0.0.1:8000/" "STOCK_MARKET"
                 (id_from env 0 16) 1) 500 "oops")
    as (_ & _ & _ & _ & Hc & Ho & _).
  - apply surjective_pairing.
  - vm_compute. do 4 right. left. reflexivity.
  - vm_compute. reflexivity.
  - reflexivity.
  - split; assumption.
Defined.

(** ** Bodies that are not JSON *)

Lemma turns_run_non_json (env : Env)
    (base_url interview_id session_id : string)
    (num_turns : Z) (min_delay max_delay : float)
    (i : Z) (n : nat) (new : list event) (lo : outcome unit)
    (req : Request) (st : Z) (body : string) :
  turns_run env base_url interview_id session_id num_turns min_delay max_delay
    i n new lo ->
  In (Exchange req (Reply st body)) new ->
  is_error_status st = false ->
  json_ok env body = false ->
  lo = Raised (RuntimeError (non_json_message session_id body))
  /\ exists t, req = turn_request base_url interview_id session_id t.
Proof.
  induction 1 as [i | i n blk rest o Hb Hr IH | i n blk e Hb];
    intros Hin Hst Hj.
  - destruct Hin.
  - apply turn_block_returned in Hb as (st0 & body0 & tl & -> & Hg & _ & _ & Htl).
    apply in_app_or in Hin as [Hin|Hin]; [exfalso | now apply IH].
    destruct Hin as [E|[E|Hin]]; try discriminate.
    + injection E as _ <- <-. cbn [good_reply] in Hg. rewrite Hst, Hj in Hg.
      discriminate.
    + destruct Htl as [[-> _]|[_ [p ->]]]; [destruct Hin|].
      destruct Hin as [E|[]]. discriminate.
  - apply turn_block_raised in Hb as (r & rest & -> & _ & Hno & Hcase).
    destruct Hin as [E|Hin]; [|exfalso; eapply Hno; eassumption].
    injection E as <- ->. rewrite Hst, Hj in Hcase. destruct Hcase as [-> _].
    split; [reflexivity | eexists; reflexivity].
Qed.

(** C5. For every turn request of a session whose response has no error
    status but a body that is not JSON, the session ends with a
    [RuntimeError] whose message is made of the session identifier (the
    one the request carries) and of the raw body of the response. *)
Theorem non_json_body_reported (base_url interview_id : string)
    (num_turns : Z) (min_delay max_delay : float) (env : Env)
    (o : outcome (Z * float)) (s' : State)
    (req : Request) (st : Z) (body : string) :
  run_single_interview base_url interview_id num_turns min_delay max_delay
    env init_state = (o, s') ->
  In (Exchange req (Reply st body)) (trace s') ->
  req_method req = POST ->
  is_error_status st = false ->
  json_ok env body = false ->
  exists sid,
    o = Raised (RuntimeError
                  ("Non-JSON response for session " ++ sid ++ ": " ++ body)%string)
    /\ sid = id_from env 0 16
    /\ exists t, req_json req = Some (mkPayload sid interview_id (turn_message t)).
Proof.
  intros E Hin Hm Hst Hj.
  apply run_single_interview_shape in E.
  cbn [init_state rng_pos net_pos clk_pos trace app] in E.
  exists (id_from env 0 16).
  destruct (replies env 0) as [|st0 body0].
  { destruct E as (_ & Ht & _). rewrite Ht in Hin.
    destruct Hin as [Ein|[]]. discriminate. }
  destruct (is_error_status st0).
  { destruct E as (_ & Ht & _). rewrite Ht in Hin.
    destruct Hin as [Ein|[]]. injection Ein as <- _ _. discriminate. }
  destruct E as (new & lo & Hr & Ht & Hc & Ho).
  rewrite Ht in Hin. destruct Hin as [Ein|Hin].
  { injection Ein as <- _ _. discriminate. }
  destruct (turns_run_non_json _ _ _ _ _ _ _ _ _ _ _ _ _ _ Hr Hin Hst Hj)
    as (Hlo & t & ->).
  rewrite Ho, Hlo. repeat split. exists t. reflexivity.
Qed.

Lemma non_json_body_reported_witness :
  let env := scripted_env [Reply 200 "{}"; Reply 200 "<html>"] in
  let run :=
    run_single_interview "http://127.0.0.1:8000" "STOCK_MARKET" 3
      (Float64.of_Z 1) (Float64.of_Z 3) env init_state in
  exists sid,
    fst run
    = Raised (RuntimeError
                ("Non-JSON response for session " ++ sid ++ ": " ++ "<html>")%string)
    /\ sid = id_from env 0 16.
Proof.
  intros env run.
  destruct (non_json_body_reported "http://127.0.0.1:8000" "STOCK_MARKET" 3
              (Float64.of_Z 1) (Float64.of_Z 3) env (fst run) (snd run)
              (turn_request "http://127.0.0.1:8000" "STOCK_MARKET"
                 (id_from env 0 16) 0) 200 "<html>")
    as (sid & Ho & Hs & _).
  - apply surjective_pairing.
  - vm_compute. do 1 right. left. reflexivity.
  - reflexivity.
  - reflexivity.
  - reflexivity.
  - exists sid. split; assumption.
Defined.

(** ** Pauses *)

Lemma turns_run_first_sleep (env : Env)
    (base_url interview_id session_id : string)
    (num_turns : Z) (min_delay max_delay : float)
    (i : Z) (n : nat) (new : list event) (lo : outcome unit) :
  turns_run env base_url interview_id session_id num_turns min_delay max_delay
    i n new lo ->
  first_sleep new = None.
Proof.
  intros H. destruct H as [i | i n blk rest o Hb Hr | i n blk e Hb].
  - reflexivity.
  - apply turn_block_returned in Hb as (st & body & tl & -> & _). reflexivity.
  - apply turn_block_raised in Hb as (r & rest & -> & _). reflexivity.
Qed.

(** In the trace of the turns, the pause after turn [t] is there exactly
    when turn [t] was completed and the guard held. *)
Lemma turns_run_pause (env : Env)
    (base_url interview_id session_id : string)
    (num_turns : Z) (min_delay max_delay : float)
    (i : Z) (n : nat) (new : list event) (lo : outcome unit) :
  turns_run env base_url interview_id session_id num_turns min_delay max_delay
    i n new lo ->
  forall t,
    (forall d, pause_after t new = Some d ->
               turn_completed env t new = true
               /\ pause_condition num_turns max_delay t = true
               /\ exists p, d = uniform_of min_delay max_delay
                                  (random_unit (draws env p)))
    /\ (turn_completed env t new = true ->
        pause_condition num_turns max_delay t = true ->
        exists d, pause_after t new = Some d).
Proof.
  induction 1 as [i | i n blk rest o Hb Hr IH | i n blk e Hb]; intros t.
  - split; [discriminate|]. simpl. discriminate.
  - pose proof (turns_run_first_sleep _ _ _ _ _ _ _ _ _ _ _ Hr) as Hfs.
    destruct (IH t) as [IH1 IH2].
    apply turn_block_returned in Hb as (st & body & tl & -> & Hg & _ & _ & Htl).
    cbn [app pause_after turn_completed existsb].
    destruct (is_turn_request t (turn_request base_url interview_id session_id i))
      eqn:Et.
    + apply is_turn_request_iff in Et. subst t. rewrite Hg. cbn [andb orb].
      destruct Htl as [[-> Hp]|[Hp [p ->]]]; cbn [app first_sleep].
      * rewrite Hfs. split; [discriminate | congruence].
      * split; [|eauto]. intros d [= <-]. eauto.
    + cbn [andb orb].
      assert (pause_after t (tl ++ rest) = pause_after t rest
              /\ existsb
                   (fun ev => match ev with
                              | Exchange req r =>
                                  is_turn_request t req && good_reply env r
                              | _ => false
                              end) (tl ++ rest)
                 = turn_completed env t rest) as [-> ->].
      { destruct Htl as [[-> _]|[_ [p ->]]]; split; reflexivity. }
      split; assumption.
  - apply turn_block_raised in Hb as (r & rest & -> & _ & _ & Hcase).
    cbn [pause_after turn_completed existsb].
    destruct (is_turn_request t (turn_request base_url interview_id session_id i))
      eqn:Et; cbn [andb orb].
    + apply is_turn_request_iff in Et. subst t.
      destruct r as [|st body].
      * destruct Hcase as [_ ->]. split; simpl; discriminate.
      * cbn [good_reply]. destruct (is_error_status st).
        { destruct Hcase as [_ ->]. split; simpl; discriminate. }
        destruct (json_ok env body).
        { destruct Hcase as (Hp & p & -> & _). cbn [first_sleep negb andb orb].
          split; [|eauto]. intros d [= <-]. eauto. }
        destruct Hcase as [_ ->]. split; simpl; discriminate.
    + assert (pause_after t rest = None
              /\ existsb
                   (fun ev => match ev with
                              | Exchange req r =>
                                  is_turn_request t req && good_reply env r
                              | _ => false
                              end) rest = false) as [-> ->].
      { destruct r as [|st body].
        - destruct Hcase as [_ ->]. split; reflexivity.
        - destruct (is_error_status st).
          { destruct Hcase as [_ ->]. split; reflexivity. }
          destruct (json_ok env body).
          + destruct Hcase as (_ & p & -> & _). split; reflexivity.
          + destruct Hcase as [_ ->]. split; reflexivity. }
      split; discriminate.
Qed.

Lemma turns_run_sleeps (env : Env)
    (base_url interview_id session_id : string)
    (num_turns : Z) (min_delay max_delay : float)
    (i : Z) (n : nat) (new : list event) (lo : outcome unit) :
  turns_run env base_url interview_id session_id num_turns min_delay max_delay
    i n new lo ->
  Float64.gtb max_delay Float64.zero = false ->
  filter is_sleep new = [].
Proof.
  intros H Hz.
  assert (forall t, pause_condition num_turns max_delay t = false) as Hp.
  { intros t. unfold pause_condition. rewrite Hz. apply andb_false_r. }
  induction H as [i | i n blk rest o Hb Hr IH | i n blk e Hb].
  - reflexivity.
  - apply turn_block_returned in Hb as (st & body & tl & -> & _ & _ & _ & Htl).
    rewrite filter_app, IH.
    destruct Htl as [[-> _]|[Hc _]]; [reflexivity | congruence].
  - apply turn_block_raised in Hb as (r & rest & -> & _ & _ & Hcase).
    destruct r as [|st body].
    + destruct Hcase as [_ ->]. reflexivity.
    + destruct (is_error_status st).
      { destruct Hcase as [_ ->]. reflexivity. }
      destruct (json_ok env body).
      * destruct Hcase as [Hc _]. congruence.
      * destruct Hcase as [_ ->]. reflexivity.
Qed.

(** C6. For every session and every turn [t], a pause is taken after turn
    [t] (that is, [time.sleep] is called between the request of turn [t]
    and the next request) if and only if the turn was completed, is not
    the last one ([t < num_turns - 1]) and [max_delay > 0]. The length of
    a pause is [random.uniform(min_delay, max_delay)], computed from a
    draw of the generator. No pause follows the last turn, and when
    [max_delay > 0] does not hold the session never sleeps. *)
Theorem pause_only_between_turns (base_url interview_id : string)
    (num_turns : Z) (min_delay max_delay : float) (env : Env)
    (o : outcome (Z * float)) (s' : State) (t : Z) :
  run_single_interview base_url interview_id num_turns min_delay max_delay
    env init_state = (o, s') ->
  ((exists d, pause_after t (trace s') = Some d)
   <-> turn_completed env t (trace s') = true
       /\ t < num_turns - 1
       /\ Float64.gtb max_delay Float64.zero = true)
  /\ (forall d, pause_after t (trace s') = Some d ->
        exists p, d = uniform_of min_delay max_delay (random_unit (draws env p)))
  /\ pause_after (num_turns - 1) (trace s') = None
  /\ (Float64.gtb max_delay Float64.zero = false ->
      filter is_sleep (trace s') = []).
Proof.
  intros E.
  apply run_single_interview_shape in E.
  cbn [init_state rng_pos net_pos clk_pos trace app] in E.
  set (sid := id_from env 0 16) in *.
  assert (forall r u,
             pause_after u [Exchange (landing_request base_url interview_id sid) r]
             = None) as Hnone by reflexivity.
  assert (forall r u,
             turn_completed env u
               [Exchange (landing_request base_url interview_id sid) r]
             = false) as Hnot by reflexivity.
  destruct (replies env 0) as [|st0 body0].
  { destruct E as (_ & -> & _). rewrite !Hnone, Hnot.
    split; [split; [intros [d Hd]; discriminate | intros [Hc _]; discriminate]|].
    split; [intros d Hd; discriminate|].
    split; [reflexivity | intros _; reflexivity]. }
  destruct (is_error_status st0).
  { destruct E as (_ & -> & _). rewrite !Hnone, Hnot.
    split; [split; [intros [d Hd]; discriminate | intros [Hc _]; discriminate]|].
    split; [intros d Hd; discriminate|].
    split; [reflexivity | intros _; reflexivity]. }
  destruct E as (new & lo & Hr & -> & _ & _).
  assert (forall u,
             pause_after u
               (Exchange (landing_request base_url interview_id sid)
                  (Reply st0 body0) :: new) = pause_after u new) as Hpa
      by reflexivity.
  assert (turn_completed env t
            (Exchange (landing_request base_url interview_id sid)
               (Reply st0 body0) :: new) = turn_completed env t new) as Htc
      by reflexivity.
  rewrite !Hpa, Htc.
  pose proof (turns_run_pause _ _ _ _ _ _ _ _ _ _ _ Hr) as Hp.
  assert (forall u, pause_condition num_turns max_delay u = true
          <-> u < num_turns - 1 /\ Float64.gtb max_delay Float64.zero = true)
    as Hcond.
  { intros u. unfold pause_condition. rewrite andb_true_iff, Z.ltb_lt. reflexivity. }
  split; [|split; [|split]].
  - split.
    + intros [d Hd]. apply (proj1 (Hp t)) in Hd as (Hc & Hpc & _).
      split; [assumption | apply Hcond, Hpc].
    + intros [Hc Hpc]. apply (proj2 (Hp t)); [assumption | apply Hcond, Hpc].
  - intros d Hd. apply (proj1 (Hp t)) in Hd as (_ & _ & Hd). assumption.
  - destruct (pause_after (num_turns - 1) new) as [d|] eqn:Ed; [|reflexivity].
    apply (proj1 (Hp (num_turns - 1))) in Ed as (_ & Hpc & _).
    apply Hcond in Hpc. lia.
  - intros Hz. cbn [filter is_sleep].
    eapply turns_run_sleeps; eassumption.
Qed.

Lemma pause_only_between_turns_witness :
  let run :=
    run_single_interview "http://127.0.0.1:8000" "STOCK_MARKET" 3
      (Float64.of_Z 1) (Float64.of_Z 3) healthy_env init_state in
  (exists d, pause_after 0 (trace (snd run)) = Some d)
  /\ pause_after 2 (trace (snd run)) = None.
Proof.
  intros run.
  destruct (pause_only_between_turns "http://127.0.0.1:8000" "STOCK_MARKET" 3
              (Float64.of_Z 1) (Float64.of_Z 3) healthy_env (fst run) (snd run) 0)
    as (Hiff & _ & Hlast & _).
  - apply surjective_pairing.
  - split; [|exact Hlast]. apply Hiff. split; [|split].
    + vm_compute. reflexivity.
    + lia.
    + vm_compute. reflexivity.
Defined.

(** ** Sessions that succeed *)

Lemma session_returns_count (base_url interview_id : string)
    (num_turns : Z) (min_delay max_delay : float) (env : Env)
    (s s' : State) (c : Z) (d : float) :
  run_single_interview base_url interview_id num_turns min_delay max_delay env s
  = (Returned (c, d), s') ->
  c = 1 + Z.of_nat (Z.to_nat num_turns)
  /\ total_requests s' = c
  /\ exists r new,
      trace s' = trace s ++ r :: new
      /\ List.length (exchanges (r :: new)) = S (Z.to_nat num_turns).
Proof.
  intros E. apply run_single_interview_shape in E.
  destruct (replies env (net_pos s)) as [|st body].
  { destruct E as [E _]. discriminate. }
  destruct (is_error_status st).
  { destruct E as [E _]. discriminate. }
  destruct E as (new & lo & Hr & Ht & Hc & Ho).
  destruct lo as [[]|e]; [|discriminate].
  assert (c = 1 + replied new) as Hceq by congruence.
  destruct (turns_run_returned_replied _ _ _ _ _ _ _ _ _ _ _ Hr eq_refl)
    as [Hrep Hlen].
  split; [lia | split; [lia|]].
  do 2 eexists. split; [exact Ht|].
  unfold exchanges in *. cbn [filter is_exchange List.length]. lia.
Qed.

Lemma turn_body_succeeds (base_url interview_id session_id : string)
    (num_turns : Z) (min_delay max_delay : float) (t : Z)
    (env : Env) (s : State) :
  good_reply env (replies env (net_pos s)) = true ->
  pauses_accepted env min_delay max_delay ->
  exists s',
    turn_body base_url interview_id session_id num_turns min_delay max_delay
      t env s = (Returned tt, s')
    /\ net_pos s' = S (net_pos s).
Proof.
  intros Hg Hp.
  destruct (turn_body base_url interview_id session_id num_turns min_delay
              max_delay t env s) as [o s'] eqn:E.
  apply turn_body_block in E as (blk & Hb & _ & _ & _ & Hn & r & Hblk & ->).
  assert (o = Returned tt) as ->.
  { destruct o as [[]|e]; [reflexivity | exfalso].
    apply turn_block_raised in Hb as (r & rest & Hblk' & _ & _ & Hcase).
    rewrite Hblk' in Hblk. cbn [tl] in Hblk.
    assert (r = replies env (net_pos s)) as -> by congruence.
    destruct (replies env (net_pos s)) as [|st body]; [discriminate|].
    cbn [good_reply] in Hg. apply andb_true_iff in Hg as [Hst Hj].
    apply negb_true_iff in Hst. rewrite Hst, Hj in Hcase.
    destruct Hcase as (Hc & p & _ & Hs).
    unfold pause_condition in Hc. apply andb_true_iff in Hc as [_ Hc].
    rewrite (Hp Hc p) in Hs. discriminate. }
  exists s'. split; [reflexivity | apply Hn; reflexivity].
Qed.

Lemma turns_loop_succeeds (base_url interview_id session_id : string)
    (num_turns : Z) (min_delay max_delay : float) (env : Env) (n : nat) :
  (forall k, good_reply env (replies env (S k)) = true) ->
  pauses_accepted env min_delay max_delay ->
  forall (i : nat) (s : State),
    (1 <= net_pos s)%nat ->
    exists s',
      for_each (map Z.of_nat (seq i n))
        (turn_body base_url interview_id session_id num_turns min_delay max_delay)
        env s = (Returned tt, s').
Proof.
  intros Hg Hp. induction n as [|n IH]; intros i s Hs; simpl.
  - exists s. reflexivity.
  - unfold bind at 1.
    assert (good_reply env (replies env (net_pos s)) = true) as Hgs.
    { destruct (net_pos s) as [|k]; [lia | apply Hg]. }
    destruct (turn_body_succeeds base_url interview_id session_id num_turns
                min_delay max_delay (Z.of_nat i) env s Hgs Hp) as (s1 & -> & Hn).
    apply IH. lia.
Qed.

(** On a service that succeeds on every call a session completes. *)
Lemma session_succeeds (base_url interview_id : string)
    (num_turns : Z) (min_delay max_delay : float) (env : Env) :
  service_succeeds env ->
  pauses_accepted env min_delay max_delay ->
  exists d s',
    run_single_interview base_url interview_id num_turns min_delay max_delay
      env init_state
    = (Returned (1 + Z.of_nat (Z.to_nat num_turns), d), s').
Proof.
  intros Hg Hp.
  destruct (run_single_interview base_url interview_id num_turns min_delay
              max_delay env init_state) as [o s'] eqn:E.
  destruct o as [[c d]|e].
  - apply session_returns_count in E as [-> _]. eauto.
  - exfalso. revert E.
    unfold run_single_interview. unfold bind at 1.
    rewrite random_session_id_run.
    unfold bind at 1, time_time at 1. unfold bind at 1, set_total_requests at 1.
    unfold bind at 1, requests_get, http_exchange.
    cbn [advance_rng init_state total_requests rng_pos net_pos clk_pos trace].
    pose proof (Hg 0%nat) as Hg0. cbn [call_succeeds] in Hg0.
    destruct (replies env 0) as [|st body]; [discriminate|].
    cbn [landing_ok] in Hg0. apply negb_true_iff in Hg0.
    unfold bind at 1, get_total_requests at 1.
    unfold bind at 1, set_total_requests at 1.
    unfold bind at 1, raise_for_status at 1.
    cbn [status_code total_requests rng_pos net_pos clk_pos trace].
    rewrite Hg0. unfold ret at 1. unfold bind at 1. unfold py_range.
    match goal with
    | |- context [for_each ?l ?b env ?s0] =>
        destruct (turns_loop_succeeds base_url interview_id
                    (id_from env 0 (Z.to_nat default_length))
                    num_turns min_delay max_delay env (Z.to_nat num_turns)
                    (fun k => Hg (S k)) Hp 0%nat s0) as [s1 ->];
          [cbn [net_pos]; lia|]
    end.
    unfold bind, time_time, get_total_requests, ret. discriminate.
Qed.

(** ** The batch *)

Lemma submit_all_length (args : Args) (envs : nat -> Env) :
  List.length (submit_all args envs) = Z.to_nat (a_users args).
Proof.
  unfold submit_all. now rewrite length_map, length_seq, py_range_length.
Qed.

Lemma submit_all_nth (args : Args) (envs : nat -> Env) (i : nat) :
  (i < Z.to_nat (a_users args))%nat ->
  nth_error (submit_all args envs) i = Some (fst (session_of args envs i)).
Proof.
  intros Hi. unfold submit_all. rewrite py_range_length.
  rewrite nth_error_map, nth_error_seq.
  destruct (Nat.ltb_spec i (Z.to_nat (a_users args))); [reflexivity | lia].
Qed.

Lemma collect_all_returned (futures : list future) (order : list nat) :
  (forall i, In i order -> exists r, nth_error futures i = Some (Returned r)) ->
  forall total,
    collect futures order total
    = (Returned tt, total + sum_requests futures order).
Proof.
  induction order as [|i rest IH]; intros H total; cbn [collect sum_requests].
  - f_equal. lia.
  - destruct (H i (or_introl eq_refl)) as [[reqs d] Hi]. rewrite Hi.
    rewrite IH by (intros j Hj; apply H; right; assumption).
    cbn [requests_of]. f_equal. lia.
Qed.

Lemma collect_first_failure (futures : list future)
    (pre post : list nat) (i : nat) (e : exn) :
  (forall j, In j pre -> exists r, nth_error futures j = Some (Returned r)) ->
  nth_error futures i = Some (Raised e) ->
  forall total,
    collect futures (pre ++ i :: post) total
    = (Raised e, total + sum_requests futures pre).
Proof.
  induction pre as [|j pre IH]; intros H Hi total;
    cbn [app collect sum_requests].
  - rewrite Hi. f_equal. lia.
  - destruct (H j (or_introl eq_refl)) as [[reqs d] Hj]. rewrite Hj.
    rewrite IH by (try assumption; intros x Hx; apply H; right; assumption).
    cbn [requests_of]. f_equal. lia.
Qed.

Lemma sum_requests_constant (futures : list future) (l : list nat) (c : Z) :
  (forall i, In i l -> exists d, nth_error futures i = Some (Returned (c, d))) ->
  sum_requests futures l = Z.of_nat (List.length l) * c.
Proof.
  induction l as [|i l IH]; intros H; cbn [sum_requests List.length].
  - reflexivity.
  - destruct (H i (or_introl eq_refl)) as [d ->]. cbn [requests_of].
    rewrite IH by (intros j Hj; apply H; right; assumption). lia.
Qed.

(** The first future of [order] that holds a failure. *)
Lemma first_failure_exists (futures : list future) (order : list nat) :
  (forall i, In i order -> (i < List.length futures)%nat) ->
  (exists i e, In i order /\ nth_error futures i = Some (Raised e)) ->
  exists pre i post e,
    order = pre ++ i :: post
    /\ (forall j, In j pre -> exists r, nth_error futures j = Some (Returned r))
    /\ nth_error futures i = Some (Raised e).
Proof.
  induction order as [|j order IH]; intros Hlt (i & e & Hin & Hi).
  - destruct Hin.
  - destruct (nth_error futures j) as [[r|e']|] eqn:Ej.
    + destruct IH as (pre & i' & post & e' & -> & Hpre & Hi').
      * intros x Hx. apply Hlt. right. assumption.
      * destruct Hin as [->|Hin]; [congruence|]. eauto.
      * exists (j :: pre), i', post, e'. repeat split; try assumption.
        intros x [<-|Hx]; eauto.
    + exists [], j, order, e'. repeat split; try assumption.
      intros x [].
    + apply nth_error_None in Ej.
      specialize (Hlt j (or_introl eq_refl)). lia.
Qed.

(** C1 (as the code has it). A session that completes all its turns,
    [num_turns] not being negative, returns the request count
    [1 + num_turns] and has sent that many requests. Consequently, for
    [N] users and [T] turns ([N] and [T] not negative), the total of the
    batch is [N * (1 + T)], and every session returns [1 + T], when the
    worker pool can be created ([max_workers], or [users] in its place,
    is positive), the service returns success on every call of every
    session (no error status for the landing request, whatever its body;
    no error status and a JSON body for every turn request) and
    [time.sleep] accepts the pauses. [order] is any order in which
    [as_completed] yields the futures. *)
Theorem successful_batch_total (args : Args) (envs : nat -> Env)
    (order : list nat) (wall : nat -> float) :
  0 <= a_turns args ->
  0 <= a_users args ->
  0 < py_or (a_max_workers args) (a_users args) ->
  Permutation order (seq 0 (Z.to_nat (a_users args))) ->
  (forall i, (i < Z.to_nat (a_users args))%nat ->
             service_succeeds (envs i)
             /\ pauses_accepted (envs i) (a_min_delay args) (a_max_delay args)) ->
  (forall env c d s',
      run_single_interview (a_base_url args) (a_interview_id args)
        (a_turns args) (a_min_delay args) (a_max_delay args) env init_state
      = (Returned (c, d), s') ->
      c = 1 + a_turns args
      /\ Z.of_nat (List.length (exchanges (trace s'))) = 1 + a_turns args)
  /\ (forall i, (i < Z.to_nat (a_users args))%nat ->
        exists d, fst (session_of args envs i) = Returned (1 + a_turns args, d))
  /\ main args envs order wall
     = (summarise (a_users args * (1 + a_turns args)) (wall 0%nat) (wall 1%nat),
        a_users args * (1 + a_turns args)).
Proof.
  intros HT HN Hpool Hperm Henv.
  assert (forall i, (i < Z.to_nat (a_users args))%nat ->
            exists d, fst (session_of args envs i)
                      = Returned (1 + a_turns args, d)) as Hsess.
  { intros i Hi. destruct (Henv i Hi) as [Hg Hp].
    destruct (session_succeeds (a_base_url args) (a_interview_id args)
                (a_turns args) (a_min_delay args) (a_max_delay args)
                (envs i) Hg Hp) as (d & s' & E).
    exists d. unfold session_of. rewrite E. cbn [fst].
    rewrite Z2Nat.id by assumption. reflexivity. }
  split; [|split; [exact Hsess|]].
  - intros env c d s' E. apply session_returns_count in E
      as (Hc & _ & r & new & Ht & Hlen).
    cbn [init_state trace app] in Ht. rewrite Ht, Hlen. lia.
  - unfold main.
    destruct (Z.leb_spec (py_or (a_max_workers args) (a_users args)) 0);
      [lia|].
    assert (forall i, In i order ->
              exists d, nth_error (submit_all args envs) i
                        = Some (Returned (1 + a_turns args, d))) as Hall.
    { intros i Hi. apply (Permutation_in _ Hperm) in Hi.
      apply in_seq in Hi. destruct (Hsess i ltac:(lia)) as [d Hd].
      exists d. rewrite submit_all_nth by lia. congruence. }
    rewrite collect_all_returned
      by (intros i Hi; destruct (Hall i Hi) as [d Hd]; eauto).
    rewrite (sum_requests_constant _ _ _ Hall).
    rewrite (Permutation_length Hperm), length_seq, Z2Nat.id by assumption.
    reflexivity.
Qed.

Lemma successful_batch_total_witness :
  main small_batch (fun _ => html_landing_env) [2; 0; 1]%nat sample_wall
  = (summarise (3 * (1 + 2)) (sample_wall 0) (sample_wall 1), 3 * (1 + 2)).
Proof.
  apply (successful_batch_total small_batch (fun _ => html_landing_env)
           [2; 0; 1]%nat sample_wall).
  - simpl. lia.
  - simpl. lia.
  - reflexivity.
  - change (seq 0 (Z.to_nat (a_users small_batch))) with [0; 1; 2]%nat.
    apply perm_trans with (l' := [0; 2; 1]%nat).
    + apply perm_swap.
    + apply perm_skip, perm_swap.
  - intros i _. split.
    + intros [|k]; reflexivity.
    + intros _ p. vm_compute. reflexivity.
Defined.

(** The claim without these conditions fails. On a service that answers
    [200] and [{}] to every call, two users with two turns each and the
    delays -5 and 1 give no total of [2 * (1 + 2)]: the first pause is
    negative, [time.sleep] refuses it, the session fails and [main] raises
    with nothing collected. And with no user and no pool size [main]
    raises [ValueError] and reports no total at all. *)
Lemma batch_total_needs_conditions :
  service_succeeds healthy_env
  /\ main negative_delay_batch (fun _ => healthy_env) [0; 1]%nat sample_wall
     = (Raised (ValueError "sleep length must be non-negative"), 0)
  /\ a_users negative_delay_batch * (1 + a_turns negative_delay_batch) = 6
  /\ main no_user_batch (fun _ => healthy_env) [] sample_wall
     = (Raised (ValueError "max_workers must be greater than 0"), 0).
Proof.
  split; [intros [|k]; reflexivity|].
  split; [vm_compute; reflexivity|].
  split; vm_compute; reflexivity.
Qed.

(** The batch of two in which the first future that [as_completed] yields
    holds the failure of a session at its landing request: [main] raises
    that session's [HTTPError]; the second session returned two requests,
    which are not collected. *)
Lemma failure_escapes_main :
  main pair_batch pair_envs [0; 1]%nat sample_wall
  = (Raised (HTTPError
               (mkResponse 500 "down"
                  (landing_request "http://127.0.0.1:8000" "STOCK_MARKET"
                     (id_from (pair_envs 0) 0 16)))), 0)
  /\ fst (session_of pair_batch pair_envs 1)
     = Returned (2, Float64.of_Z 1).
Proof.
  split; vm_compute; reflexivity.
Qed.

(** ** Throughput *)

Lemma positive_not_zero (d : float) :
  Float64.gtb d Float64.zero = true -> Float64.eqb d Float64.zero = false.
Proof.
  unfold Float64.gtb, Float64.ltb, Float64.eqb, Float64.zero, SFltb, SFeqb.
  destruct d as [[]|[]| |[] m e]; simpl; congruence.
Qed.

Lemma zero_not_positive (d : float) :
  Float64.eqb d Float64.zero = true -> Float64.gtb d Float64.zero = false.
Proof.
  intros H. destruct (Float64.gtb d Float64.zero) eqn:E; [|reflexivity].
  apply positive_not_zero in E. congruence.
Qed.

(** * Further properties of the harness *)

(** ** What every session does *)

Lemma turns_run_raised_last (env : Env)
    (base_url interview_id session_id : string)
    (num_turns : Z) (min_delay max_delay : float)
    (i : Z) (n : nat) (new : list event) (e : exn) :
  turns_run env base_url interview_id session_id num_turns min_delay max_delay
    i n new (Raised e) ->
  exists (j : nat) pre blk,
    (j < n)%nat
    /\ new = pre ++ blk
    /\ turn_block env base_url interview_id session_id num_turns min_delay
         max_delay (i + Z.of_nat j) blk (Raised e)
    /\ sent_requests pre = requests_from base_url interview_id session_id i j
    /\ replied pre = Z.of_nat j
    /\ has_transport_failure pre = false.
Proof.
  intros H. remember (Raised e) as lo eqn:Hlo.
  induction H as [i | i n blk rest o Hb Hr IH | i n blk e' Hb].
  - discriminate.
  - destruct (IH Hlo) as (j & pre & blk' & Hj & -> & Hb' & Hs & Hrep & Htf).
    exists (S j), (blk ++ pre), blk'.
    apply turn_block_returned in Hb as (st & body & tl & -> & _ & Hc & _ & Htl).
    split; [lia|]. split; [now rewrite app_assoc|]. split.
    { replace (i + Z.of_nat (S j)) with (i + 1 + Z.of_nat j) by lia. assumption. }
    split; [|split].
    + rewrite sent_requests_app, Hs.
      destruct Htl as [[-> _]|[_ [p ->]]]; reflexivity.
    + rewrite replied_app, Hc, Hrep. lia.
    + unfold has_transport_failure in *. rewrite existsb_app, Htf.
      destruct Htl as [[-> _]|[_ [p ->]]]; reflexivity.
  - injection Hlo as ->. exists 0%nat, [], blk.
    split; [lia|]. split; [reflexivity|]. split.
    { now rewrite Z.add_0_r. }
    repeat split.
Qed.

Lemma turns_run_returned_schedule (env : Env)
    (base_url interview_id session_id : string)
    (num_turns : Z) (min_delay max_delay : float)
    (i : Z) (n : nat) (new : list event) :
  turns_run env base_url interview_id session_id num_turns min_delay max_delay
    i n new (Returned tt) ->
  sent_requests new = requests_from base_url interview_id session_id i n
  /\ has_transport_failure new = false.
Proof.
  intros H. remember (Returned tt) as lo eqn:Hlo.
  induction H as [i | i n blk rest o Hb Hr IH | i n blk e' Hb].
  - split; reflexivity.
  - destruct (IH Hlo) as [Hs Htf].
    apply turn_block_returned in Hb as (st & body & tl & -> & _ & _ & _ & Htl).
    unfold has_transport_failure in *.
    rewrite sent_requests_app, existsb_app, Hs, Htf.
    destruct Htl as [[-> _]|[_ [p ->]]]; split; reflexivity.
  - discriminate.
Qed.

Lemma requests_from_length (base_url interview_id session_id : string)
    (n : nat) (i : Z) :
  List.length (requests_from base_url interview_id session_id i n) = n.
Proof.
  revert i. induction n as [|n IH]; intros i; simpl; auto.
Qed.

Lemma requests_from_firstn (base_url interview_id session_id : string)
    (m n : nat) (i : Z) :
  (m <= n)%nat ->
  requests_from base_url interview_id session_id i m
  = firstn m (requests_from base_url interview_id session_id i n).
Proof.
  revert n i. induction m as [|m IH]; intros n i Hmn.
  - reflexivity.
  - destruct n as [|n]; [lia|]. simpl. f_equal. apply IH. lia.
Qed.

Lemma schedule_requests_from (base_url interview_id session_id : string)
    (num_turns : Z) :
  schedule base_url interview_id session_id num_turns
  = landing_request base_url interview_id session_id
      :: requests_from base_url interview_id session_id 0 (Z.to_nat num_turns).
Proof.
  unfold schedule, py_range. f_equal.
  change 0 with (Z.of_nat 0). now rewrite requests_from_range.
Qed.

Lemma transport_failure_in (req : Request) (tr : list event) :
  In (Exchange req TransportFailure) tr -> has_transport_failure tr = true.
Proof.
  intros H. unfold has_transport_failure. apply existsb_exists.
  exists (Exchange req TransportFailure). split; [assumption | reflexivity].
Qed.

(** The head of a turn: its request first, nothing but calls after it. *)
Lemma turn_block_head (env : Env) (base_url interview_id session_id : string)
    (num_turns : Z) (min_delay max_delay : float) (t : Z) (blk : list event)
    (o : outcome unit) :
  turn_block env base_url interview_id session_id num_turns min_delay max_delay
    t blk o ->
  exists r rest,
    blk = Exchange (turn_request base_url interview_id session_id t) r :: rest
    /\ sent_requests rest = []
    /\ replied rest = 0
    /\ has_transport_failure rest = false
    /\ json_calls rest
       = accepted_turn_bodies
           [Exchange (turn_request base_url interview_id session_id t) r]
    /\ (List.length (sleep_calls rest)
        <= if pause_condition num_turns max_delay t then 1 else 0)%nat
    /\ (o = Returned tt ->
        List.length (sleep_calls rest)
        = if pause_condition num_turns max_delay t then 1%nat else 0%nat).
Proof.
  intros H. inversion H; subst; do 2 eexists; (split; [reflexivity|]);
    cbn [sent_requests replied has_transport_failure existsb json_calls
           accepted_turn_bodies sleep_calls List.length turn_request req_method
           orb];
    repeat match goal with
           | H : _ = _ |- _ => rewrite H
           end;
    repeat split; try reflexivity; try discriminate;
    destruct (pause_condition num_turns max_delay t); auto.
Qed.

Lemma json_calls_app (tr1 tr2 : list event) :
  json_calls (tr1 ++ tr2) = json_calls tr1 ++ json_calls tr2.
Proof.
  induction tr1 as [|[req r|body|d] tr1 IH]; simpl; congruence.
Qed.

Lemma accepted_turn_bodies_app (tr1 tr2 : list event) :
  accepted_turn_bodies (tr1 ++ tr2)
  = accepted_turn_bodies tr1 ++ accepted_turn_bodies tr2.
Proof.
  induction tr1 as [|[req [|st body]|body|d] tr1 IH]; simpl; try congruence.
  destruct (req_method req); [assumption|].
  destruct (is_error_status st); simpl; congruence.
Qed.

Lemma sleep_calls_app (tr1 tr2 : list event) :
  sleep_calls (tr1 ++ tr2) = sleep_calls tr1 ++ sleep_calls tr2.
Proof.
  induction tr1 as [|[req r|body|d] tr1 IH]; simpl; congruence.
Qed.

Lemma has_transport_failure_app (tr1 tr2 : list event) :
  has_transport_failure (tr1 ++ tr2)
  = has_transport_failure tr1 || has_transport_failure tr2.
Proof. apply existsb_app. Qed.

(** What the turns of any session add to the trace. *)
Lemma turns_run_calls (env : Env)
    (base_url interview_id session_id : string)
    (num_turns : Z) (min_delay max_delay : float)
    (i : Z) (n : nat) (new : list event) (lo : outcome unit) :
  turns_run env base_url interview_id session_id num_turns min_delay max_delay
    i n new lo ->
  json_calls new = accepted_turn_bodies new
  /\ (List.length (sleep_calls new)
      <= Z.to_nat (Z.min (Z.of_nat n) (num_turns - 1 - i)))%nat
  /\ (lo = Returned tt ->
      Float64.gtb max_delay Float64.zero = true ->
      List.length (sleep_calls new)
      = Z.to_nat (Z.min (Z.of_nat n) (num_turns - 1 - i))).
Proof.
  assert (forall t, pause_condition num_turns max_delay t = true ->
                    t < num_turns - 1) as Hpc.
  { intros t Ht. unfold pause_condition in Ht.
    apply andb_true_iff in Ht as [Ht _]. now apply Z.ltb_lt. }
  assert (forall t, Float64.gtb max_delay Float64.zero = true ->
                    pause_condition num_turns max_delay t = false ->
                    num_turns - 1 <= t) as Hnpc.
  { intros t Hg Ht. unfold pause_condition in Ht. rewrite Hg, andb_true_r in Ht.
    now apply Z.ltb_ge. }
  induction 1 as [i | i n blk rest o Hb Hr IH | i n blk e Hb].
  - repeat split; simpl; lia.
  - destruct IH as (IHj & IHle & IHeq).
    pose proof Hb as Hb'.
    apply turn_block_head in Hb' as (r & tl & -> & _ & _ & _ & Hj & Hle & Heq).
    specialize (Heq eq_refl).
    change (((Exchange (turn_request base_url interview_id session_id i) r :: tl)
               ++ rest))
      with ([Exchange (turn_request base_url interview_id session_id i) r]
              ++ (tl ++ rest)).
    rewrite !json_calls_app, !accepted_turn_bodies_app, !sleep_calls_app,
      !length_app, IHj, Hj.
    assert (accepted_turn_bodies tl = []) as Htl.
    { apply turn_block_returned in Hb as (st & body & tl' & E & _ & _ & _ & Ht).
      injection E as _ ->. destruct Ht as [[-> _]|[_ [p ->]]]; reflexivity. }
    rewrite Htl. cbn [json_calls sleep_calls List.length app].
    split; [reflexivity|].
    destruct (pause_condition num_turns max_delay i) eqn:Ep.
    + apply Hpc in Ep. split; [lia|]. intros Ho Hg. rewrite (IHeq Ho Hg). lia.
    + split; [lia|]. intros Ho Hg. pose proof (Hnpc i Hg Ep).
      rewrite (IHeq Ho Hg). lia.
  - pose proof Hb as Hb'.
    apply turn_block_head in Hb' as (r & tl & -> & _ & _ & _ & Hj & Hle & _).
    change (Exchange (turn_request base_url interview_id session_id i) r :: tl)
      with ([Exchange (turn_request base_url interview_id session_id i) r] ++ tl).
    rewrite json_calls_app, accepted_turn_bodies_app, sleep_calls_app, Hj.
    assert (accepted_turn_bodies tl = []) as Htl.
    { apply turn_block_raised in Hb as (r' & tl' & E & _ & _ & Hcase).
      injection E as _ ->. destruct r' as [|st body].
      - destruct Hcase as [_ ->]. reflexivity.
      - destruct (is_error_status st).
        + destruct Hcase as [_ ->]. reflexivity.
        + destruct (json_ok env body).
          * destruct Hcase as (_ & p & -> & _). reflexivity.
          * destruct Hcase as [_ ->]. reflexivity. }
    rewrite Htl, ?app_nil_r. cbn [json_calls sleep_calls List.length app].
    split; [reflexivity|]. split; [|discriminate].
    destruct (pause_condition num_turns max_delay i) eqn:Ep.
    + apply Hpc in Ep. lia.
    + lia.
Qed.

Lemma turns_run_counts (env : Env)
    (base_url interview_id session_id : string)
    (num_turns : Z) (min_delay max_delay : float)
    (i : Z) (n : nat) (new : list event) (lo : outcome unit) :
  turns_run env base_url interview_id session_id num_turns min_delay max_delay
    i n new lo ->
  Z.of_nat (List.length (sent_requests new))
  = replied new + (if has_transport_failure new then 1 else 0)
  /\ (List.length (sent_requests new) <= n)%nat.
Proof.
  induction 1 as [i | i n blk rest o Hb Hr IH | i n blk e Hb].
  - split; simpl; lia.
  - destruct IH as [IH1 IH2].
    apply turn_block_returned in Hb as (st & body & tl & -> & _ & Hc & _ & Htl).
    rewrite sent_requests_app, replied_app, has_transport_failure_app,
      length_app, Hc.
    assert (sent_requests
              (Exchange (turn_request base_url interview_id session_id i)
                 (Reply st body) :: JsonCall body :: tl)
            = [turn_request base_url interview_id session_id i]
            /\ has_transport_failure
                 (Exchange (turn_request base_url interview_id session_id i)
                    (Reply st body) :: JsonCall body :: tl) = false)
      as [-> ->].
    { destruct Htl as [[-> _]|[_ [p ->]]]; split; reflexivity. }
    cbn [List.length orb]. split; lia.
  - apply turn_block_head in Hb as (r & rest & -> & Hs & Hrep & Htf & _).
    cbn [sent_requests List.length]. rewrite Hs. cbn [List.length].
    split; [|lia].
    destruct r as [|st body]; cbn [replied has_transport_failure existsb orb];
      fold (has_transport_failure rest); rewrite Hrep, ?Htf; lia.
Qed.


(** X1. Whatever happens, the request counter of a session is the number of
    requests that were answered: it is the number of requests sent, less
    one when the last request got no answer at all. A session sends at
    least the landing request and at most one request more than it has
    turns. *)
Theorem request_counter_invariant (base_url interview_id : string)
    (num_turns : Z) (min_delay max_delay : float) (env : Env)
    (o : outcome (Z * float)) (s' : State) :
  run_single_interview base_url interview_id num_turns min_delay max_delay
    env init_state = (o, s') ->
  total_requests s' = replied (trace s')
  /\ Z.of_nat (List.length (sent_requests (trace s')))
     = total_requests s'
       + (if has_transport_failure (trace s') then 1 else 0)
  /\ 1 <= Z.of_nat (List.length (sent_requests (trace s')))
     <= 1 + Z.max 0 num_turns.
Proof.
  intros E. apply run_single_interview_shape in E.
  cbn [init_state rng_pos net_pos clk_pos trace app] in E.
  destruct (replies env 0) as [|st body].
  { destruct E as (_ & -> & ->).
    cbn [replied sent_requests List.length has_transport_failure existsb orb].
    lia. }
  destruct (is_error_status st).
  { destruct E as (_ & -> & ->).
    cbn [replied sent_requests List.length has_transport_failure existsb orb].
    lia. }
  destruct E as (new & lo & Hr & -> & -> & _).
  destruct (turns_run_counts _ _ _ _ _ _ _ _ _ _ _ Hr) as [Hc Hn].
  cbn [replied sent_requests List.length has_transport_failure existsb orb].
  fold (has_transport_failure new).
  split; [reflexivity|]. split; lia.
Qed.

Lemma request_counter_invariant_witness :
  let run :=
    run_single_interview "http://127.0.0.1:8000" "STOCK_MARKET" 4
      (Float64.of_Z 1) (Float64.of_Z 3)
      (scripted_env [Reply 200 "{}"; Reply 200 "{}"; TransportFailure])
      init_state in
  total_requests (snd run) = 2
  /\ Z.of_nat (List.length (sent_requests (trace (snd run)))) = 2 + 1.
Proof.
  intros run.
  destruct (request_counter_invariant "http://127.0.0.1:8000" "STOCK_MARKET" 4
              (Float64.of_Z 1) (Float64.of_Z 3)
              (scripted_env [Reply 200 "{}"; Reply 200 "{}"; TransportFailure])
              (fst run) (snd run)) as (H1 & H2 & _).
  - apply surjective_pairing.
  - split.
    + rewrite H1. vm_compute. reflexivity.
    + rewrite H2, H1. vm_compute. reflexivity.
Defined.

Lemma requests_from_snoc (base_url interview_id session_id : string)
    (j : nat) (i : Z) :
  requests_from base_url interview_id session_id i j
    ++ [turn_request base_url interview_id session_id (i + Z.of_nat j)]
  = requests_from base_url interview_id session_id i (S j).
Proof.
  revert i. induction j as [|j IH]; intros i.
  - cbn [requests_from app]. now rewrite Z.add_0_r.
  - cbn [requests_from app]. f_equal.
    replace (i + Z.of_nat (S j)) with (i + 1 + Z.of_nat j) by lia.
    apply IH.
Qed.

(** X2. The requests of a session follow its schedule - the landing
    request, then the requests of the turns 0, 1, 2, ... in this order,
    each with the identifier of the session and the interview key: what
    was sent is always a beginning of the schedule, without gap, repeat
    or retry, and it is the whole schedule when the session returns. *)
Theorem requests_follow_schedule (base_url interview_id : string)
    (num_turns : Z) (min_delay max_delay : float) (env : Env)
    (o : outcome (Z * float)) (s' : State) :
  run_single_interview base_url interview_id num_turns min_delay max_delay
    env init_state = (o, s') ->
  sent_requests (trace s')
  = firstn (List.length (sent_requests (trace s')))
      (schedule base_url interview_id (id_from env 0 16) num_turns)
  /\ (forall r, o = Returned r ->
        sent_requests (trace s')
        = schedule base_url interview_id (id_from env 0 16) num_turns)
  /\ (forall req, In req (sent_requests (trace s')) ->
        req = landing_request base_url interview_id (id_from env 0 16)
        \/ exists t, 0 <= t < num_turns
                     /\ req = turn_request base_url interview_id
                                (id_from env 0 16) t).
Proof.
  intros E.
  assert (sent_requests (trace s')
          = firstn (List.length (sent_requests (trace s')))
              (schedule base_url interview_id (id_from env 0 16) num_turns)
          /\ (forall r, o = Returned r ->
                sent_requests (trace s')
                = schedule base_url interview_id (id_from env 0 16) num_turns))
    as [Hpre Hall].
  { apply run_single_interview_shape in E.
    cbn [init_state rng_pos net_pos clk_pos trace app] in E.
    rewrite schedule_requests_from.
    destruct (replies env 0) as [|st body].
    { destruct E as (-> & -> & _). split; [reflexivity | discriminate]. }
    destruct (is_error_status st).
    { destruct E as (-> & -> & _). split; [reflexivity | discriminate]. }
    destruct E as (new & lo & Hr & -> & _ & ->).
    cbn [sent_requests List.length firstn].
    destruct lo as [[]|e].
    - destruct (turns_run_returned_schedule _ _ _ _ _ _ _ _ _ _ Hr) as [-> _].
      rewrite requests_from_length, <- requests_from_firstn by lia.
      split; reflexivity.
    - split; [|discriminate]. f_equal.
      destruct (turns_run_raised_last _ _ _ _ _ _ _ _ _ _ _ Hr)
        as (j & pre & blk & Hj & -> & Hb & Hs & _).
      apply turn_block_head in Hb as (r & rest & -> & Hrest & _).
      rewrite sent_requests_app. cbn [sent_requests]. rewrite Hs, Hrest.
      rewrite requests_from_snoc.
      rewrite requests_from_length. apply requests_from_firstn. lia. }
  split; [assumption|]. split; [assumption|].
  intros req Hin. rewrite Hpre in Hin.
  apply (fun H => in_or_app _ (skipn (List.length (sent_requests (trace s')))
                                (schedule base_url interview_id
                                   (id_from env 0 16) num_turns)) req
                    (or_introl H)) in Hin.
  rewrite firstn_skipn in Hin. unfold schedule in Hin. destruct Hin as [<-|Hin]; [now left | right].
  apply in_map_iff in Hin as (t & <- & Ht). exists t. split; [|reflexivity].
  unfold py_range in Ht. apply in_map_iff in Ht as (k & <- & Hk).
  apply in_seq in Hk. lia.
Qed.

Lemma requests_follow_schedule_witness :
  let run :=
    run_single_interview "http://127.0.0.1:8000" "STOCK_MARKET" 3
      (Float64.of_Z 1) (Float64.of_Z 3) healthy_env init_state in
  sent_requests (trace (snd run))
  = schedule "http://127.0.0.1:8000" "STOCK_MARKET"
      (id_from healthy_env 0 16) 3.
Proof.
  intros run.
  destruct (requests_follow_schedule "http://127.0.0.1:8000" "STOCK_MARKET" 3
              (Float64.of_Z 1) (Float64.of_Z 3) healthy_env (fst run) (snd run))
    as (_ & H & _).
  - apply surjective_pairing.
  - apply (H (4, Float64.of_Z 1)). vm_compute. reflexivity.
Defined.

(** X3. A request that gets no answer - the transport fails - ends the
    session at once with the [RequestException] of that request: it is
    the last event of the trace, and it is not counted, so the counter is
    0 for the landing request and [k + 1] for the request of turn [k]. *)
Theorem unanswered_request_ends_session (base_url interview_id : string)
    (num_turns : Z) (min_delay max_delay : float) (env : Env)
    (o : outcome (Z * float)) (s' : State) (req : Request) :
  run_single_interview base_url interview_id num_turns min_delay max_delay
    env init_state = (o, s') ->
  In (Exchange req TransportFailure) (trace s') ->
  o = Raised (RequestException req)
  /\ (exists pre, trace s' = pre ++ [Exchange req TransportFailure])
  /\ (req = landing_request base_url interview_id (id_from env 0 16)
      /\ total_requests s' = 0
      \/ exists k, 0 <= k < num_turns
                   /\ req = turn_request base_url interview_id
                              (id_from env 0 16) k
                   /\ total_requests s' = k + 1).
Proof.
  intros E Hin. apply run_single_interview_shape in E.
  cbn [init_state rng_pos net_pos clk_pos trace app] in E.
  destruct (replies env 0) as [|st body].
  { destruct E as (-> & Ht & Hc). rewrite Ht in Hin.
    destruct Hin as [Ein|[]]. injection Ein as <-.
    split; [reflexivity|]. split; [exists []; assumption | left; auto]. }
  destruct (is_error_status st).
  { destruct E as (_ & Ht & _). rewrite Ht in Hin.
    destruct Hin as [Ein|[]]. discriminate. }
  destruct E as (new & lo & Hr & Ht & Hc & Ho).
  rewrite Ht in Hin. destruct Hin as [Ein|Hin]; [discriminate|].
  pose proof (transport_failure_in _ _ Hin) as Htf.
  destruct lo as [[]|e].
  { destruct (turns_run_returned_schedule _ _ _ _ _ _ _ _ _ _ Hr) as [_ Hno].
    congruence. }
  destruct (turns_run_raised_last _ _ _ _ _ _ _ _ _ _ _ Hr)
    as (j & pre & blk & Hj & -> & Hb & Hs & Hrep & Hpre).
  apply in_app_or in Hin as [Hin|Hin].
  { apply transport_failure_in in Hin. congruence. }
  apply turn_block_raised in Hb as (r & rest & -> & _ & Hno & Hcase).
  destruct Hin as [Ein|Hin]; [|exfalso; eapply Hno; eassumption].
  injection Ein as <- ->. destruct Hcase as [-> ->].
  split; [assumption|]. split.
  - exists (Exchange (landing_request base_url interview_id (id_from env 0 16))
              (Reply st body) :: pre).
    rewrite Ht. reflexivity.
  - right. exists (0 + Z.of_nat j). split; [lia|]. split; [reflexivity|].
    rewrite Hc, replied_app, Hrep. cbn [replied]. lia.
Qed.

Lemma unanswered_request_ends_session_witness :
  let env := scripted_env [Reply 200 "{}"; Reply 200 "{}"; TransportFailure] in
  let run :=
    run_single_interview "http://127.0.0.1:8000" "STOCK_MARKET" 4
      (Float64.of_Z 1) (Float64.of_Z 3) env init_state in
  fst run
  = Raised (RequestException
              (turn_request "http://127.0.0.1:8000" "STOCK_MARKET"
                 (id_from env 0 16) 1)).
Proof.
  intros env run.
  destruct (unanswered_request_ends_session "http://127.0.0.1:8000"
              "STOCK_MARKET" 4 (Float64.of_Z 1) (Float64.of_Z 3) env
              (fst run) (snd run)
              (turn_request "http://127.0.0.1:8000" "STOCK_MARKET"
                 (id_from env 0 16) 1)) as (H & _).
  - apply surjective_pairing.
  - vm_compute. do 4 right. left. reflexivity.
  - exact H.
Defined.



(** X6. A number of turns that is zero or negative is an empty range: the
    session makes the landing request and nothing else, whatever the
    answer, and returns the count 1 when the landing answer has no error
    status. *)
Theorem nonpositive_turns_landing_only (base_url interview_id : string)
    (num_turns : Z) (min_delay max_delay : float) (env : Env) :
  num_turns <= 0 ->
  exists o s',
    run_single_interview base_url interview_id num_turns min_delay max_delay
      env init_state = (o, s')
    /\ trace s'
       = [Exchange (landing_request base_url interview_id (id_from env 0 16))
            (replies env 0)]
    /\ o = match replies env 0 with
           | TransportFailure =>
               Raised (RequestException
                         (landing_request base_url interview_id
                            (id_from env 0 16)))
           | Reply st body =>
               if is_error_status st then
                 Raised (HTTPError
                           (mkResponse st body
                              (landing_request base_url interview_id
                                 (id_from env 0 16))))
               else Returned (1, Float64.sub (clock env 1) (clock env 0))
           end.
Proof.
  intros HT.
  destruct (run_single_interview base_url interview_id num_turns min_delay
              max_delay env init_state) as [o s'] eqn:E.
  exists o, s'. split; [reflexivity|].
  apply run_single_interview_shape in E.
  cbn [init_state rng_pos net_pos clk_pos trace app] in E.
  destruct (replies env 0) as [|st body].
  - destruct E as (-> & -> & _). split; reflexivity.
  - destruct (is_error_status st).
    + destruct E as (-> & -> & _). split; reflexivity.
    + destruct E as (new & lo & Hr & -> & _ & ->).
      replace (Z.to_nat num_turns) with 0%nat in Hr by lia.
      inversion Hr; subst. split; reflexivity.
Qed.

Lemma nonpositive_turns_landing_only_witness :
  exists o s',
    run_single_interview "http://127.0.0.1:8000" "STOCK_MARKET" (-3)
      (Float64.of_Z 1) (Float64.of_Z 3) healthy_env init_state = (o, s')
    /\ List.length (trace s') = 1%nat.
Proof.
  destruct (nonpositive_turns_landing_only "http://127.0.0.1:8000"
              "STOCK_MARKET" (-3) (Float64.of_Z 1) (Float64.of_Z 3) healthy_env)
    as (o & s' & H & Ht & _).
  - lia.
  - exists o, s'. split; [exact H | rewrite Ht; reflexivity].
Defined.

(** X7. [resp.json()] is called once for every answer to a turn request
    that comes without an error status, on the body of that answer and in
    the order of the answers, and on nothing else: the body of the landing
    answer is never parsed, nor is the body of an answer with an error
    status. *)
Theorem bodies_parsed_once (base_url interview_id : string)
    (num_turns : Z) (min_delay max_delay : float) (env : Env)
    (o : outcome (Z * float)) (s' : State) :
  run_single_interview base_url interview_id num_turns min_delay max_delay
    env init_state = (o, s') ->
  json_calls (trace s') = accepted_turn_bodies (trace s').
Proof.
  intros E. apply run_single_interview_shape in E.
  cbn [init_state rng_pos net_pos clk_pos trace app] in E.
  destruct (replies env 0) as [|st body].
  { destruct E as (_ & -> & _). reflexivity. }
  destruct (is_error_status st).
  { destruct E as (_ & -> & _). reflexivity. }
  destruct E as (new & lo & Hr & -> & _ & _).
  cbn [json_calls accepted_turn_bodies landing_request req_method].
  apply (turns_run_calls _ _ _ _ _ _ _ _ _ _ _ Hr).
Qed.

Lemma bodies_parsed_once_witness :
  json_calls
    (trace (snd (run_single_interview "http://127.0.0.1:8000" "STOCK_MARKET" 3
                   (Float64.of_Z 1) (Float64.of_Z 3)
                   (scripted_env [Reply 200 "<html>"; Reply 200 "{}";
                                  Reply 500 "down"]) init_state)))
  = ["{}"].
Proof.
  rewrite (bodies_parsed_once "http://127.0.0.1:8000" "STOCK_MARKET" 3
             (Float64.of_Z 1) (Float64.of_Z 3)
             (scripted_env [Reply 200 "<html>"; Reply 200 "{}"; Reply 500 "down"])
             _ _ (surjective_pairing _)).
  vm_compute. reflexivity.
Defined.

(** X8. A session of [num_turns] turns calls [time.sleep] at most
    [num_turns - 1] times (never, with fewer than two turns); a session
    that returns with [max_delay > 0] calls it exactly [num_turns - 1]
    times. *)
Theorem pauses_counted (base_url interview_id : string)
    (num_turns : Z) (min_delay max_delay : float) (env : Env)
    (o : outcome (Z * float)) (s' : State) :
  run_single_interview base_url interview_id num_turns min_delay max_delay
    env init_state = (o, s') ->
  (List.length (sleep_calls (trace s')) <= Z.to_nat (num_turns - 1))%nat
  /\ (forall r, o = Returned r ->
        Float64.gtb max_delay Float64.zero = true ->
        List.length (sleep_calls (trace s')) = Z.to_nat (num_turns - 1)).
Proof.
  intros E. apply run_single_interview_shape in E.
  cbn [init_state rng_pos net_pos clk_pos trace app] in E.
  destruct (replies env 0) as [|st body].
  { destruct E as (-> & -> & _). split; [simpl; lia | discriminate]. }
  destruct (is_error_status st).
  { destruct E as (-> & -> & _). split; [simpl; lia | discriminate]. }
  destruct E as (new & lo & Hr & -> & _ & ->).
  cbn [sleep_calls].
  destruct (turns_run_calls _ _ _ _ _ _ _ _ _ _ _ Hr) as (_ & Hle & Heq).
  split; [lia|].
  intros r Ho Hg. destruct lo as [[]|e]; [|discriminate].
  rewrite (Heq eq_refl Hg). lia.
Qed.

Lemma pauses_counted_witness :
  List.length
    (sleep_calls
       (trace (snd (run_single_interview "http://127.0.0.1:8000"
                      "STOCK_MARKET" 4 (Float64.of_Z 1) (Float64.of_Z 3)
                      healthy_env init_state))))
  = 3%nat.
Proof.
  destruct (pauses_counted "http://127.0.0.1:8000" "STOCK_MARKET" 4
              (Float64.of_Z 1) (Float64.of_Z 3) healthy_env _ _
              (surjective_pairing _)) as [_ H].
  apply (H (5, Float64.of_Z 1)); vm_compute; reflexivity.
Defined.

(** ** Identifiers, messages and URLs *)

(** X9. The message of a turn request names its turn: different turns
    have different messages, hence different payloads, and the index of
    the turn can be read back from the decimal number that ends the
    message. *)
Theorem turn_messages_distinct (a b : Z) :
  (turn_message a = turn_message b <-> a = b)
  /\ (forall session_id interview_id,
         turn_payload session_id interview_id a
         = turn_payload session_id interview_id b -> a = b)
  /\ turn_message a = ("Dummy answer turn " ++ str_of_int a)%string
  /\ option_map Z.of_int (NilZero.int_of_string (str_of_int a)) = Some a.
Proof.
  split; [|split; [|split]].
  - split; [apply turn_message_inj | now intros ->].
  - intros sid iid H. apply (f_equal p_user_message) in H.
    apply turn_message_inj, H.
  - reflexivity.
  - unfold str_of_int. rewrite NilZero.isi.
    + cbn [option_map]. now rewrite DecimalZ.of_to.
    + destruct a; simpl; intros [= E]; try discriminate.
      eapply DecimalPos.Unsigned.to_uint_nonnil; eassumption.
    + destruct a; simpl; intros [= E]; try discriminate.
      eapply DecimalPos.Unsigned.to_uint_nonnil; eassumption.
Qed.

(** X10. A requested length that is zero or negative gives the empty
    identifier, and no random draw is made. *)
Theorem nonpositive_length_empty_id (n : Z) (env : Env) (s : State) :
  n <= 0 ->
  random_session_id n env s = (Returned EmptyString, s).
Proof.
  intros Hn. rewrite random_session_id_run.
  replace (Z.to_nat n) with 0%nat by lia.
  unfold advance_rng. rewrite Nat.add_0_r. destruct s; reflexivity.
Qed.

Lemma nonpositive_length_empty_id_witness :
  random_session_id (-1) healthy_env init_state
  = (Returned EmptyString, init_state).
Proof.
  apply (nonpositive_length_empty_id (-1) healthy_env init_state). lia.
Defined.

Lemma pick_eq_iff (a b : Z) : pick a = pick b <-> a mod 62 = b mod 62.
Proof.
  split.
  - intros H. pose proof (pick_get a) as Ha. pose proof (pick_get b) as Hb.
    rewrite H in Ha.
    pose proof (alphabet_index_unique _ _ _ Ha Hb) as E.
    pose proof (Z.mod_pos_bound a 62 ltac:(lia)).
    pose proof (Z.mod_pos_bound b 62 ltac:(lia)). lia.
  - intros H. pose proof (pick_get a) as Ha. pose proof (pick_get b) as Hb.
    rewrite H in Ha. congruence.
Qed.

Lemma id_from_eq_iff (env env' : Env) (n : nat) :
  forall pos pos',
    id_from env pos n = id_from env' pos' n
    <-> forall i, (i < n)%nat ->
                  draws env (pos + i) mod 62 = draws env' (pos' + i) mod 62.
Proof.
  induction n as [|n IH]; intros pos pos'; cbn [id_from].
  - split; [intros _ i Hi; lia | reflexivity].
  - split.
    + intros H. injection H as Hp Hrest. apply pick_eq_iff in Hp.
      rewrite IH in Hrest. intros [|i] Hi.
      * now rewrite !Nat.add_0_r.
      * specialize (Hrest i ltac:(lia)).
        now rewrite !Nat.add_succ_r, <- !Nat.add_succ_l.
    + intros H. f_equal.
      * apply pick_eq_iff. specialize (H 0%nat ltac:(lia)).
        now rewrite !Nat.add_0_r in H.
      * apply IH. intros i Hi. specialize (H (S i) ltac:(lia)).
        now rewrite !Nat.add_succ_r, <- !Nat.add_succ_l in H.
Qed.

(** X11. Two identifiers of the same length are equal exactly when the
    indices drawn for them ([randbelow 62] of each draw) are the same at
    every position: an identifier keeps all of its draws, so identifiers
    collide only when the draws do. *)
Theorem identifiers_equal_iff_draws (n : Z) (env env' : Env) (s s' : State) :
  fst (random_session_id n env s) = fst (random_session_id n env' s')
  <-> forall i, (i < Z.to_nat n)%nat ->
                draws env (rng_pos s + i) mod 62
                = draws env' (rng_pos s' + i) mod 62.
Proof.
  rewrite !random_session_id_run. cbn [fst].
  rewrite <- id_from_eq_iff. split.
  - intros H. now injection H.
  - now intros ->.
Qed.

Lemma rstrip_length_le (s chars : string) :
  (String.length (rstrip s chars) <= String.length s)%nat.
Proof.
  induction s as [|a s IH]; cbn [rstrip String.length].
  - lia.
  - destruct (rstrip s chars) as [|b r].
    + destruct (char_in a chars); cbn [String.length]; lia.
    + cbn [String.length] in *. lia.
Qed.

Lemma char_in_single (a c : ascii) :
  char_in a (String c EmptyString) = true -> a = c.
Proof.
  unfold char_in. cbn. rewrite orb_false_r. apply Ascii.eqb_eq.
Qed.

Lemma rstrip_decompose (s : string) (c : ascii) :
  exists k,
    s = (rstrip s (String c EmptyString) ++ repeat_char c k)%string.
Proof.
  induction s as [|a s [k IH]]; cbn [rstrip].
  - exists 0%nat. reflexivity.
  - destruct (rstrip s (String c EmptyString)) as [|b r] eqn:E.
    + destruct (char_in a (String c EmptyString)) eqn:Ha.
      * apply char_in_single in Ha. subst a. exists (S k).
        cbn [append repeat_char]. f_equal. exact IH.
      * exists k. cbn [append]. f_equal. exact IH.
    + exists k. cbn [append] in *. f_equal. exact IH.
Qed.

Lemma append_length (s t : string) :
  String.length (s ++ t)%string = (String.length s + String.length t)%nat.
Proof.
  induction s as [|a s IH]; cbn [append String.length]; [reflexivity | lia].
Qed.

(** X12. The base URL is the stripped base URL followed by the ['/']
    characters that were taken off, and the stripped base URL does not end
    with ['/']: in both URLs of a session exactly one ['/'] stands between
    the stripped base and what follows. A base URL that does not end with
    ['/'] is used as it is; one made of ['/'] only is stripped to the
    empty string. *)
Theorem stripped_base_url (base_url : string) :
  (exists k, base_url = (rstrip base_url "/" ++ repeat_char "/" k)%string)
  /\ (forall t, rstrip base_url "/" <> (t ++ "/")%string)
  /\ ((forall t, base_url <> (t ++ "/")%string) ->
      rstrip base_url "/" = base_url)
  /\ (forall k, rstrip (repeat_char "/" k) "/" = EmptyString)
  /\ (forall interview_id session_id,
         url_landing base_url interview_id session_id
         = (rstrip base_url "/" ++ "/" ++ interview_id ++ "/" ++ session_id)%string
         /\ url_next base_url = (rstrip base_url "/" ++ "/next")%string).
Proof.
  assert (forall t, rstrip base_url "/" <> (t ++ "/")%string) as Hend.
  { intros t H.
    pose proof (rstrip_idempotent base_url "/") as Hi. rewrite H in Hi.
    change (t ++ "/")%string with (t ++ repeat_char "/" 1)%string in Hi.
    rewrite (rstrip_app_repeat t "/" "/" 1 slash_in_slash) in Hi.
    pose proof (rstrip_length_le t "/") as Hl. rewrite Hi in Hl.
    rewrite append_length in Hl. cbn [repeat_char String.length] in Hl. lia. }
  split; [apply rstrip_decompose|]. split; [exact Hend|]. split; [|split].
  - intros Hno. destruct (rstrip_decompose base_url "/") as [[|k] Hk].
    + cbn [repeat_char] in Hk. rewrite Hk at 2.
      clear. induction (rstrip base_url "/") as [|a s IH]; cbn [append];
        [reflexivity | now f_equal].
    + exfalso. apply (Hno (rstrip base_url "/" ++ repeat_char "/" k)%string).
      rewrite Hk at 1. clear.
      induction (rstrip base_url "/") as [|a s IH]; cbn [append].
      * induction k as [|k IHk]; cbn [repeat_char append]; [reflexivity|].
        f_equal. exact IHk.
      * f_equal. exact IH.
  - intros k. apply rstrip_repeat_char, slash_in_slash.
  - intros iid sid. split; reflexivity.
Qed.

Lemma stripped_base_url_witness :
  rstrip "http://h" "/" = "http://h".
Proof.
  destruct (stripped_base_url "http://h") as (_ & _ & H & _).
  apply H.
  do 8 (intros [|? t] E; cbn [append] in E;
        [discriminate E | injection E as _ E; revert t E]).
  intros [|? t] E; discriminate E.
Defined.

(** ** The batch: what [main] can do *)

Lemma collect_cases (futures : list future) (order : list nat) :
  forall total,
    (none_failed futures order
     /\ collect futures order total
        = (Returned tt, total + sum_requests futures order))
    \/ exists pre i post e,
        order = pre ++ i :: post
        /\ none_failed futures pre
        /\ nth_error futures i = Some (Raised e)
        /\ collect futures order total
           = (Raised e, total + sum_requests futures pre).
Proof.
  induction order as [|i rest IH]; intros total; cbn [collect sum_requests].
  - left. split; [intros i e [] | f_equal; lia].
  - destruct (nth_error futures i) as [[[reqs d]|e]|] eqn:Ei.
    + destruct (IH (total + reqs)) as [[Hnf Hc]|(pre & j & post & e & -> & Hnf & Hj & Hc)].
      * left. split.
        -- intros x e [<-|Hx]; [congruence | now apply Hnf].
        -- rewrite Hc. cbn [requests_of]. f_equal. lia.
      * right. exists (i :: pre), j, post, e. split; [reflexivity|]. split; [|split].
        -- intros x e' [<-|Hx]; [congruence | now apply Hnf].
        -- assumption.
        -- rewrite Hc. cbn [sum_requests]. rewrite Ei. cbn [requests_of].
           f_equal. lia.
    + right. exists [], i, rest, e. split; [reflexivity|]. split; [|split].
      * intros x e' [].
      * assumption.
      * cbn [sum_requests]. f_equal. lia.
    + destruct (IH total) as [[Hnf Hc]|(pre & j & post & e & -> & Hnf & Hj & Hc)].
      * left. split.
        -- intros x e [<-|Hx]; [congruence | now apply Hnf].
        -- rewrite Hc. cbn [requests_of]. f_equal.
      * right. exists (i :: pre), j, post, e. split; [reflexivity|]. split; [|split].
        -- intros x e' [<-|Hx]; [congruence | now apply Hnf].
        -- assumption.
        -- rewrite Hc. cbn [sum_requests]. rewrite Ei. cbn [requests_of].
           f_equal.
Qed.

Lemma throughput_cases (total : Z) (d : float) :
  (exists rps, throughput total d = Returned rps)
  \/ throughput total d
     = Raised (OverflowError "int too large to convert to float").
Proof.
  unfold throughput. destruct (Float64.gtb d Float64.zero) eqn:E; [|eauto].
  unfold truediv. rewrite (positive_not_zero d E).
  unfold float_of_int. destruct (Float64.of_Z total); eauto.
Qed.



Lemma sum_requests_perm (futures : list future) (l l' : list nat) :
  Permutation l l' -> sum_requests futures l = sum_requests futures l'.
Proof.
  induction 1; cbn [sum_requests]; lia.
Qed.

Lemma none_failed_perm (futures : list future) (l l' : list nat) :
  Permutation l l' -> none_failed futures l -> none_failed futures l'.
Proof.
  intros Hp Hnf i e Hi. apply Hnf.
  apply (Permutation_in _ (Permutation_sym Hp)). assumption.
Qed.

Lemma collect_none_failed (futures : list future) (order : list nat) (total : Z) :
  none_failed futures order ->
  collect futures order total
  = (Returned tt, total + sum_requests futures order).
Proof.
  intros Hnf.
  destruct (collect_cases futures order total)
    as [[_ H]|(pre & i & post & e & -> & _ & Hi & _)]; [assumption|].
  exfalso. apply (Hnf i e); [|assumption].
  apply in_or_app. right. left. reflexivity.
Qed.

Lemma collect_some_failed (futures : list future) (order : list nat) (total : Z)
    (i : nat) (e : exn) :
  In i order -> nth_error futures i = Some (Raised e) ->
  exists e' t, collect futures order total = (Raised e', t).
Proof.
  intros Hin Hi.
  destruct (collect_cases futures order total)
    as [[Hnf _]|(pre & j & post & e' & _ & _ & _ & H)].
  - exfalso. apply (Hnf i e); assumption.
  - eauto.
Qed.

(** X14. The order in which the sessions complete does not matter to a
    batch without failure: two orders of completion of the same futures
    give the same result of [main], total and summary. When some session
    failed, [main] raises an exception in either order. *)
Theorem completion_order_irrelevant (args : Args) (envs : nat -> Env)
    (order1 order2 : list nat) (wall : nat -> float) :
  Permutation order1 order2 ->
  (none_failed (submit_all args envs) order1 ->
   main args envs order1 wall = main args envs order2 wall)
  /\ (forall i e,
         In i order1 ->
         nth_error (submit_all args envs) i = Some (Raised e) ->
         exists e1 e2,
           fst (main args envs order1 wall) = Raised e1
           /\ fst (main args envs order2 wall) = Raised e2).
Proof.
  intros Hperm. split.
  - intros Hnf. unfold main.
    destruct (py_or (a_max_workers args) (a_users args) <=? 0); [reflexivity|].
    rewrite (collect_none_failed _ _ _ Hnf).
    rewrite (collect_none_failed _ _ _ (none_failed_perm _ _ _ Hperm Hnf)).
    rewrite (sum_requests_perm _ _ _ Hperm). reflexivity.
  - intros i e Hin Hi. unfold main.
    destruct (py_or (a_max_workers args) (a_users args) <=? 0);
      [do 2 eexists; split; reflexivity|].
    destruct (collect_some_failed _ _ 0 _ _ Hin Hi) as (e1 & t1 & ->).
    destruct (collect_some_failed _ _ 0 _ _ (Permutation_in _ Hperm Hin) Hi)
      as (e2 & t2 & ->).
    exists e1, e2. split; reflexivity.
Qed.

Lemma completion_order_irrelevant_witness :
  main small_batch (fun _ => steady_env) [0; 1; 2]%nat sample_wall
  = main small_batch (fun _ => steady_env) [2; 0; 1]%nat sample_wall.
Proof.
  destruct (completion_order_irrelevant small_batch (fun _ => steady_env)
              [0; 1; 2]%nat [2; 0; 1]%nat sample_wall) as [H _].
  - apply Permutation_sym.
    apply perm_trans with (l' := [0; 2; 1]%nat).
    + apply perm_swap.
    + apply perm_skip, perm_swap.
  - apply H. intros i e Hin.
    destruct Hin as [<-|[<-|[<-|[]]]]; vm_compute; discriminate.
Defined.

(** Which exception [main] raises can depend on the order of the futures:
    two sessions fail here, one at its landing request and one at its
    first turn. *)
Example order_selects_exception :
  let args := mkArgs "http://127.0.0.1:8000" "STOCK_MARKET" 2 1
                Float64.zero Float64.zero None in
  let envs := fun i : nat =>
                match i with
                | O => scripted_env [Reply 500 "down"]
                | _ => scripted_env [Reply 200 "{}"; Reply 404 "gone"]
                end in
  (exists resp, fst (main args envs [0; 1]%nat sample_wall)
                = Raised (HTTPError resp) /\ status_code resp = 500)
  /\ (exists resp, fst (main args envs [1; 0]%nat sample_wall)
                   = Raised (HTTPError resp) /\ status_code resp = 404).
Proof.
  split; eexists; split; vm_compute; reflexivity.
Qed.

(** *** Converting the total to a float *)

Lemma digits2_pos_size (p : positive) : digits2_pos p = Pos.size p.
Proof. induction p; simpl; congruence. Qed.

Lemma digits2_pos_iter_xO (p k : positive) :
  digits2_pos (Pos.iter xO p k) = (digits2_pos p + k)%positive.
Proof.
  induction k using Pos.peano_ind.
  - simpl. now rewrite Pos.add_1_r.
  - rewrite Pos.iter_succ. simpl. rewrite IHk. lia.
Qed.

Lemma pos_iter_xO_value (m k : positive) :
  Zpos (Pos.iter xO m k) = Zpos m * 2 ^ Zpos k.
Proof.
  induction k using Pos.peano_ind.
  - simpl. lia.
  - rewrite Pos.iter_succ, Pos2Z.inj_succ, Z.pow_succ_r by lia.
    rewrite Pos2Z.inj_xO, IHk. lia.
Qed.

(** A mantissa of 53 bits with an exponent in range is kept as it is. *)
Lemma binary_round_aux_canonical (sx : bool) (mz : positive) (ez : Z) :
  Zpos (digits2_pos mz) = 53 -> -1074 <= ez <= 971 ->
  binary_round_aux 53 1024 sx (Zpos mz) ez loc_Exact = S754_finite sx mz ez.
Proof.
  intros Hd He.
  unfold binary_round_aux, shr_fexp, fexp, emin. cbn [Zdigits2 shr_record_of_loc].
  rewrite Hd.
  replace (Z.max (53 + ez - 53) (3 - 1024 - 53) - ez) with 0 by lia.
  cbn [shr shr_m loc_of_shr_record round_nearest_even Zdigits2 shr_record_of_loc].
  rewrite Hd.
  replace (Z.max (53 + ez - 53) (3 - 1024 - 53) - ez) with 0 by lia.
  cbn [shr shr_m].
  destruct (Z.leb_spec ez (1024 - 53)); [reflexivity | lia].
Qed.

Lemma of_Z_small (m : positive) :
  Zpos m < 2 ^ 53 ->
  exists mz ez,
    Float64.of_Z (Zpos m) = S754_finite false mz ez
    /\ ez <= 0
    /\ Zpos mz = Zpos m * 2 ^ (- ez).
Proof.
  intros Hm.
  assert (Zpos (digits2_pos m) <= 53) as Hd.
  { rewrite digits2_pos_size. pose proof (Pos.size_le m) as Hs.
    destruct (Z.le_gt_cases (Zpos (Pos.size m)) 53) as [H|H]; [exact H|].
    exfalso.
    assert (2 ^ 54 <= Zpos (2 ^ Pos.size m)%positive).
    { rewrite Pos2Z.inj_pow. apply Z.pow_le_mono_r; lia. }
    lia. }
  unfold Float64.of_Z, Float64.prec, Float64.emax.
  unfold binary_normalize, binary_round, shl_align, fexp, emin.
  replace (Z.max (Z.pos (digits2_pos m) + 0 - 53) (3 - 1024 - 53) - 0)
    with (Z.pos (digits2_pos m) - 53) by lia.
  destruct (Z.pos (digits2_pos m) - 53) as [|k|k] eqn:Ek.
  - exists m, 0. rewrite binary_round_aux_canonical by lia.
    split; [reflexivity|]. split; simpl; lia.
  - lia.
  - exists (Pos.iter xO m k),
      (Z.max (Z.pos (digits2_pos m) + 0 - 53) (3 - 1024 - 53)).
    rewrite binary_round_aux_canonical.
    + split; [reflexivity|]. split; [lia|].
      rewrite pos_iter_xO_value. f_equal. f_equal. lia.
    + rewrite digits2_pos_iter_xO. lia.
    + lia.
Qed.

(** Below [2^53] the conversion succeeds and is exact. *)
Lemma float_of_int_small (n : Z) :
  0 <= n < 2 ^ 53 ->
  exists x,
    float_of_int n = Returned x
    /\ (n = 0 /\ x = Float64.zero
        \/ exists mz ez,
            x = S754_finite false mz ez /\ ez <= 0
            /\ Zpos mz = n * 2 ^ (- ez)).
Proof.
  intros [H0 H1]. destruct n as [|m|m]; [| |lia].
  - exists Float64.zero. split; [reflexivity | left; split; reflexivity].
  - destruct (of_Z_small m H1) as (mz & ez & Hf & He & Hv).
    exists (S754_finite false mz ez). unfold float_of_int. rewrite Hf.
    split; [reflexivity | right; eauto].
Qed.

Lemma sum_requests_nonneg (args : Args) (envs : nat -> Env) (l : list nat) :
  0 <= sum_requests (submit_all args envs) l.
Proof.
  induction l as [|i l IH]; cbn [sum_requests]; [lia|].
  enough (0 <= requests_of (nth_error (submit_all args envs) i)) by lia.
  destruct (nth_error (submit_all args envs) i) as [[[c d]|e]|] eqn:Ei;
    cbn [requests_of]; try lia.
  assert (i < Z.to_nat (a_users args))%nat as Hi.
  { rewrite <- (submit_all_length args envs). apply nth_error_Some. congruence. }
  rewrite submit_all_nth in Ei by assumption. injection Ei as Ei.
  unfold session_of in Ei.
  destruct (run_single_interview (a_base_url args) (a_interview_id args)
              (a_turns args) (a_min_delay args) (a_max_delay args) (envs i)
              init_state) as [o s'] eqn:E.
  cbn [fst] in Ei. subst o. apply session_returns_count in E as [-> _]. lia.
Qed.

(** X15. When the pool can be created, no session failed and fewer than
    [2^53] requests were counted, [main] raises nothing: it returns the
    summary made of the total, of the wall-clock duration and of the
    throughput, which is the total, converted to a float without
    rounding, divided by the duration when the duration is positive, and
    0.0 otherwise. *)
Theorem successful_batch_reports (args : Args) (envs : nat -> Env)
    (order : list nat) (wall : nat -> float) :
  0 < pool_size args ->
  none_failed (submit_all args envs) order ->
  sum_requests (submit_all args envs) order < 2 ^ 53 ->
  exists rps,
    main args envs order wall
    = (Returned
         (mkSummary (sum_requests (submit_all args envs) order)
            (Float64.sub (wall 1%nat) (wall 0%nat)) rps),
       sum_requests (submit_all args envs) order)
    /\ (Float64.gtb (Float64.sub (wall 1%nat) (wall 0%nat)) Float64.zero = false ->
        rps = Float64.zero)
    /\ (Float64.gtb (Float64.sub (wall 1%nat) (wall 0%nat)) Float64.zero = true ->
        exists x,
          float_of_int (sum_requests (submit_all args envs) order) = Returned x
          /\ rps = Float64.div x (Float64.sub (wall 1%nat) (wall 0%nat))
          /\ (sum_requests (submit_all args envs) order = 0 /\ x = Float64.zero
              \/ exists mz ez,
                  x = S754_finite false mz ez /\ ez <= 0
                  /\ Zpos mz
                     = sum_requests (submit_all args envs) order * 2 ^ (- ez))).
Proof.
  intros Hpool Hnf Hlt.
  pose proof (sum_requests_nonneg args envs order) as H0.
  destruct (float_of_int_small _ (conj H0 Hlt)) as (x & Hx & Hexact).
  unfold main. unfold pool_size in Hpool.
  destruct (Z.leb_spec (py_or (a_max_workers args) (a_users args)) 0); [lia|].
  rewrite (collect_none_failed _ _ _ Hnf). cbn [Z.add].
  unfold summarise, throughput.
  destruct (Float64.gtb (Float64.sub (wall 1%nat) (wall 0%nat)) Float64.zero)
    eqn:Eg.
  - unfold truediv. rewrite Hx, (positive_not_zero _ Eg).
    eexists. split; [reflexivity|]. split; [discriminate|].
    intros _. exists x. repeat split; assumption.
  - eexists. split; [reflexivity|]. split; [reflexivity | discriminate].
Qed.

Lemma successful_batch_reports_witness :
  exists rps,
    main small_batch (fun _ => steady_env) [2; 0; 1]%nat sample_wall
    = (Returned
         (mkSummary
            (sum_requests (submit_all small_batch (fun _ => steady_env))
               [2; 0; 1]%nat)
            (Float64.sub (sample_wall 1) (sample_wall 0)) rps),
       sum_requests (submit_all small_batch (fun _ => steady_env))
         [2; 0; 1]%nat).
Proof.
  destruct (successful_batch_reports small_batch (fun _ => steady_env)
              [2; 0; 1]%nat sample_wall) as (rps & H & _).
  - reflexivity.
  - intros i e Hin.
    destruct Hin as [<-|[<-|[<-|[]]]]; vm_compute; discriminate.
  - vm_compute. reflexivity.
  - exists rps. exact H.
Defined.

(** X17. A batch without users ([users] zero or negative) submits nothing.
    With a positive [max_workers] given, [main] returns the summary of no
    request: total 0 and throughput 0.0, whatever the duration. Without
    it ([max_workers] absent, or 0, which stands for absent), the size of
    the pool is [users] and [main] raises [ValueError] instead of
    reporting. *)
Theorem batch_without_users (args : Args) (envs : nat -> Env)
    (order : list nat) (wall : nat -> float) :
  a_users args <= 0 ->
  Permutation order (seq 0 (Z.to_nat (a_users args))) ->
  submit_all args envs = []
  /\ (forall w, a_max_workers args = Some w -> 0 < w ->
        main args envs order wall
        = (Returned (mkSummary 0 (Float64.sub (wall 1%nat) (wall 0%nat))
                       Float64.zero), 0))
  /\ (a_max_workers args = None \/ a_max_workers args = Some 0 ->
      main args envs order wall
      = (Raised (ValueError "max_workers must be greater than 0"), 0)).
Proof.
  intros HN Hperm.
  replace (Z.to_nat (a_users args)) with 0%nat in Hperm by lia.
  apply Permutation_sym, Permutation_nil in Hperm. subst order.
  assert (submit_all args envs = []) as Hs.
  { unfold submit_all. rewrite py_range_length.
    replace (Z.to_nat (a_users args)) with 0%nat by lia. reflexivity. }
  split; [assumption|]. split.
  - intros w Hw Hpos. unfold main. rewrite Hw. cbn [py_or].
    destruct (Z.eqb_spec w 0); [lia|].
    destruct (Z.leb_spec w 0); [lia|].
    cbn [collect]. unfold summarise, throughput.
    destruct (Float64.gtb (Float64.sub (wall 1%nat) (wall 0%nat)) Float64.zero)
      eqn:Eg; [|reflexivity].
    unfold truediv. rewrite (positive_not_zero _ Eg).
    change (float_of_int 0) with (Returned Float64.zero).
    cbv iota beta.
    destruct (Float64.sub (wall 1%nat) (wall 0%nat)) as [[]|[]| |[] m e];
      try discriminate Eg; reflexivity.
  - intros Hw. unfold main.
    assert (py_or (a_max_workers args) (a_users args) = a_users args) as ->.
    { destruct Hw as [-> | ->]; reflexivity. }
    destruct (Z.leb_spec (a_users args) 0); [reflexivity | lia].
Qed.

Lemma batch_without_users_witness :
  main (mkArgs "http://127.0.0.1:8000" "STOCK_MARKET" 0 10
          (Float64.of_Z 1) (Float64.of_Z 3) (Some 4))
       (fun _ => healthy_env) [] sample_wall
  = (Returned (mkSummary 0 (Float64.sub (sample_wall 1) (sample_wall 0))
                 Float64.zero), 0).
Proof.
  destruct (batch_without_users
              (mkArgs "http://127.0.0.1:8000" "STOCK_MARKET" 0 10
                 (Float64.of_Z 1) (Float64.of_Z 3) (Some 4))
              (fun _ => healthy_env) [] sample_wall) as (_ & H & _).
  - simpl. lia.
  - apply Permutation_refl.
  - apply (H 4); [reflexivity | lia].
Defined.

(** ** The API key of the application *)

(** X16. [test_api_key] returns [True] exactly for a key that starts with
    [sk-]; it reports the key as not set exactly when the key is the
    placeholder, which is the value of [OPENAI_API_KEY] when the
    environment variable is not set (a variable that is set is taken as
    it is, were it empty: the empty key is reported as set but possibly
    not valid). *)
Theorem api_key_check (key : string) :
  (snd (test_api_key key) = true <-> startswith key "sk-" = true)
  /\ (fst (test_api_key key) = "❌ API key not set - using default placeholder"
      <-> key = placeholder_api_key)
  /\ (forall environ,
         environ "OPENAI_API_KEY" = None ->
         test_api_key (OPENAI_API_KEY environ)
         = ("❌ API key not set - using default placeholder", false))
  /\ (forall environ v,
         environ "OPENAI_API_KEY" = Some v -> OPENAI_API_KEY environ = v)
  /\ test_api_key ""
     = ("⚠️ API key is set but may not be valid format", false).
Proof.
  split; [|split; [|split; [|split]]].
  - unfold test_api_key.
    destruct (String.eqb_spec key placeholder_api_key) as [->|Hne].
    + split; [discriminate | vm_compute; discriminate].
    + destruct (startswith key "sk-"); cbn [snd]; split; congruence.
  - unfold test_api_key.
    destruct (String.eqb_spec key placeholder_api_key) as [->|Hne].
    + split; reflexivity.
    + destruct (startswith key "sk-"); cbn [fst]; split;
        try discriminate; intros; congruence.
  - intros environ H. unfold OPENAI_API_KEY, os_getenv. rewrite H. reflexivity.
  - intros environ v H. unfold OPENAI_API_KEY, os_getenv. rewrite H. reflexivity.
  - reflexivity.
Qed.

(** ** The batch: failures and the reported throughput *)

(** Below [2^53] requests the summary is returned. *)
Lemma summarise_small (total : Z) (global_start global_end : float) :
  0 <= total < 2 ^ 53 ->
  exists rps,
    summarise total global_start global_end
    = Returned (mkSummary total (Float64.sub global_end global_start) rps)
    /\ throughput total (Float64.sub global_end global_start) = Returned rps.
Proof.
  intros Ht. destruct (float_of_int_small total Ht) as (x & Hx & _).
  unfold summarise, throughput.
  destruct (Float64.gtb (Float64.sub global_end global_start) Float64.zero)
    eqn:Eg.
  - unfold truediv. rewrite Hx, (positive_not_zero _ Eg).
    eexists. split; reflexivity.
  - eexists. split; reflexivity.
Qed.

(** C2 (as the code has it). [order] is the order in which [as_completed]
    yields the futures, each future once; the code does not fix it:
    futures already finished when [as_completed] is called come first, in
    no particular order, the others as they finish. In a batch whose
    worker pool can be created, the exception of a failed session is kept
    in its future and raised again by [future.result()] in the loop of
    [main], which has no handler. So when some session fails, [main]
    raises the exception of the first future in [order] that holds a
    failure; the counts of the futures before it in [order] are all that
    was added to the total, the results of the futures after it are not
    collected. When no session fails, [main] has added all the counts and
    ends as the summary of their sum does: it returns that summary when
    the sum is below [2^53] (beyond, the conversion of the sum to a float
    can raise [OverflowError]). *)
Theorem failed_session_aborts_batch (args : Args) (envs : nat -> Env)
    (order : list nat) (wall : nat -> float) :
  0 < py_or (a_max_workers args) (a_users args) ->
  Permutation order (seq 0 (Z.to_nat (a_users args))) ->
  ((forall i, (i < Z.to_nat (a_users args))%nat ->
              exists r, fst (session_of args envs i) = Returned r) ->
   main args envs order wall
   = (summarise (sum_requests (submit_all args envs) order)
        (wall 0%nat) (wall 1%nat),
      sum_requests (submit_all args envs) order)
   /\ (sum_requests (submit_all args envs) order < 2 ^ 53 ->
       exists rps,
         main args envs order wall
         = (Returned
              (mkSummary (sum_requests (submit_all args envs) order)
                 (Float64.sub (wall 1%nat) (wall 0%nat)) rps),
            sum_requests (submit_all args envs) order)
         /\ throughput (sum_requests (submit_all args envs) order)
              (Float64.sub (wall 1%nat) (wall 0%nat)) = Returned rps))
  /\ (forall i e,
         (i < Z.to_nat (a_users args))%nat ->
         fst (session_of args envs i) = Raised e ->
         exists pre j post e',
           order = pre ++ j :: post
           /\ (forall x, In x pre ->
                         exists r, fst (session_of args envs x) = Returned r)
           /\ fst (session_of args envs j) = Raised e'
           /\ main args envs order wall
              = (Raised e', sum_requests (submit_all args envs) pre)).
Proof.
  intros Hpool Hperm.
  assert (forall i, In i order -> (i < Z.to_nat (a_users args))%nat) as Hrange.
  { intros i Hi. apply (Permutation_in _ Hperm) in Hi. apply in_seq in Hi. lia. }
  split.
  - intros Hall.
    assert (main args envs order wall
            = (summarise (sum_requests (submit_all args envs) order)
                 (wall 0%nat) (wall 1%nat),
               sum_requests (submit_all args envs) order)) as Hmain.
    { unfold main.
      destruct (Z.leb_spec (py_or (a_max_workers args) (a_users args)) 0);
        [lia|].
      rewrite collect_all_returned; [reflexivity|].
      intros i Hi. destruct (Hall i (Hrange i Hi)) as [r Hr].
      exists r. rewrite submit_all_nth by auto. congruence. }
    split; [exact Hmain|].
    intros Hlt. pose proof (sum_requests_nonneg args envs order) as H0.
    destruct (summarise_small _ (wall 0%nat) (wall 1%nat) (conj H0 Hlt))
      as (rps & Hs & Ht).
    exists rps. rewrite Hmain, Hs. split; [reflexivity | exact Ht].
  - intros i e Hi He.
    destruct (first_failure_exists (submit_all args envs) order)
      as (pre & j & post & e' & Hord & Hpre & Hj).
    + intros x Hx. rewrite submit_all_length. auto.
    + exists i, e. split.
      * apply (Permutation_in _ (Permutation_sym Hperm)), in_seq. lia.
      * rewrite submit_all_nth by assumption. congruence.
    + assert (forall x, In x (pre ++ j :: post) ->
                        (x < Z.to_nat (a_users args))%nat) as Hr'
          by (rewrite <- Hord; exact Hrange).
      exists pre, j, post, e'. split; [assumption|]. split; [|split].
      * intros x Hx. destruct (Hpre x Hx) as [r Hr]. exists r.
        rewrite submit_all_nth in Hr
          by (apply Hr', in_or_app; left; assumption).
        congruence.
      * rewrite submit_all_nth in Hj
          by (apply Hr', in_or_app; right; left; reflexivity).
        congruence.
      * unfold main.
        destruct (Z.leb_spec (py_or (a_max_workers args) (a_users args)) 0);
          [lia|].
        rewrite Hord, (collect_first_failure _ _ _ _ _ Hpre Hj). reflexivity.
Qed.

Lemma failed_session_aborts_batch_witness :
  exists pre j post e',
    [1; 0]%nat = pre ++ j :: post
    /\ fst (session_of pair_batch pair_envs j) = Raised e'
    /\ main pair_batch pair_envs [1; 0]%nat sample_wall
       = (Raised e', sum_requests (submit_all pair_batch pair_envs) pre).
Proof.
  destruct (failed_session_aborts_batch pair_batch pair_envs [1; 0]%nat
              sample_wall) as [_ H].
  - reflexivity.
  - apply perm_swap.
  - destruct (H 0%nat
                (HTTPError
                   (mkResponse 500 "down"
                      (landing_request "http://127.0.0.1:8000" "STOCK_MARKET"
                         (id_from (pair_envs 0) 0 16)))))
      as (pre & j & post & e' & H1 & _ & H3 & H4).
    + simpl. lia.
    + vm_compute. reflexivity.
    + exists pre, j, post, e'. repeat split; assumption.
Defined.

(** C7. The throughput that [main] reports is [total_requests /
    total_duration] when [total_duration > 0] (100 requests in 10.0
    seconds are reported as 10.0) and 0.0 when [total_duration] is zero
    (or not positive at all). That holds of the expression [throughput],
    of the summary made of it, and of what [main] returns: when the pool
    can be created and no session failed, [main] ends as that summary
    does, and returns it for a total below [2^53]. The division never
    raises [ZeroDivisionError]: [main] raises one only if a session did. *)
Theorem throughput_guarded (total : Z) (total_duration : float) :
  (Float64.gtb total_duration Float64.zero = true ->
   throughput total total_duration
   = match float_of_int total with
     | Returned x => Returned (Float64.div x total_duration)
     | Raised e => Raised e
     end)
  /\ throughput 100 (Float64.of_Z 10) = Returned (Float64.of_Z 10)
  /\ (Float64.eqb total_duration Float64.zero = true ->
      throughput total total_duration = Returned Float64.zero)
  /\ (forall msg, throughput total total_duration <> Raised (ZeroDivisionError msg))
  /\ (forall global_start global_end msg,
         summarise total global_start global_end
         <> Raised (ZeroDivisionError msg))
  /\ (forall global_start global_end,
         Float64.sub global_end global_start = total_duration ->
         (Float64.gtb total_duration Float64.zero = true ->
          summarise total global_start global_end
          = match float_of_int total with
            | Returned x =>
                Returned (mkSummary total total_duration
                            (Float64.div x total_duration))
            | Raised e => Raised e
            end)
         /\ (Float64.gtb total_duration Float64.zero = false ->
             summarise total global_start global_end
             = Returned (mkSummary total total_duration Float64.zero))
         /\ (Float64.eqb total_duration Float64.zero = true ->
             summarise total global_start global_end
             = Returned (mkSummary total total_duration Float64.zero)))
  /\ summarise 100 (Float64.of_Z 5) (Float64.of_Z 15)
     = Returned (mkSummary 100 (Float64.of_Z 10) (Float64.of_Z 10))
  /\ (forall args envs order wall,
         0 < pool_size args ->
         none_failed (submit_all args envs) order ->
         sum_requests (submit_all args envs) order = total ->
         Float64.sub (wall 1%nat) (wall 0%nat) = total_duration ->
         main args envs order wall
         = (summarise total (wall 0%nat) (wall 1%nat), total)
         /\ (total < 2 ^ 53 ->
             exists rps,
               main args envs order wall
               = (Returned (mkSummary total total_duration rps), total)
               /\ throughput total total_duration = Returned rps))
  /\ (forall args envs order wall msg,
         fst (main args envs order wall) = Raised (ZeroDivisionError msg) ->
         exists i,
           In i order
           /\ nth_error (submit_all args envs) i
              = Some (Raised (ZeroDivisionError msg))).
Proof.
  assert (forall d msg, throughput total d <> Raised (ZeroDivisionError msg))
    as Hnever.
  { intros d msg. unfold throughput.
    destruct (Float64.gtb d Float64.zero) eqn:E; [|discriminate].
    unfold truediv. rewrite (positive_not_zero d E).
    unfold float_of_int. destruct (Float64.of_Z total); discriminate. }
  assert (Float64.gtb total_duration Float64.zero = true ->
          throughput total total_duration
          = match float_of_int total with
            | Returned x => Returned (Float64.div x total_duration)
            | Raised e => Raised e
            end) as Hpos.
  { intros H. unfold throughput, truediv. rewrite H, (positive_not_zero _ H).
    destruct (float_of_int total); reflexivity. }
  assert (Float64.gtb total_duration Float64.zero = false ->
          throughput total total_duration = Returned Float64.zero) as Hnonpos.
  { intros H. unfold throughput. rewrite H. reflexivity. }
  split; [exact Hpos|].
  split; [vm_compute; reflexivity|].
  split; [intros H; apply Hnonpos, zero_not_positive, H|].
  split; [apply Hnever|].
  split.
  { intros t0 t1 msg. unfold summarise.
    destruct (throughput total (Float64.sub t1 t0)) as [rps|e] eqn:E;
      [discriminate|].
    intros [= ->]. apply (Hnever _ _ E). }
  split.
  { intros t0 t1 Hd. unfold summarise. rewrite Hd. split; [|split].
    - intros H. rewrite (Hpos H). destruct (float_of_int total); reflexivity.
    - intros H. rewrite (Hnonpos H). reflexivity.
    - intros H. rewrite (Hnonpos (zero_not_positive _ H)). reflexivity. }
  split; [vm_compute; reflexivity|].
  split.
  { intros args envs order wall Hpool Hnf Hsum Hd.
    assert (main args envs order wall
            = (summarise total (wall 0%nat) (wall 1%nat), total)) as Hmain.
    { unfold main. unfold pool_size in Hpool.
      destruct (Z.leb_spec (py_or (a_max_workers args) (a_users args)) 0);
        [lia|].
      rewrite (collect_none_failed _ _ _ Hnf). cbn [Z.add]. rewrite Hsum.
      reflexivity. }
    split; [exact Hmain|].
    intros Hlt. pose proof (sum_requests_nonneg args envs order) as H0.
    rewrite Hsum in H0.
    destruct (summarise_small total (wall 0%nat) (wall 1%nat) (conj H0 Hlt))
      as (rps & Hs & Ht).
    rewrite Hd in Hs, Ht. exists rps. rewrite Hmain, Hs.
    split; [reflexivity | exact Ht]. }
  intros args envs order wall msg. unfold main.
  destruct (py_or (a_max_workers args) (a_users args) <=? 0);
    [cbn [fst]; discriminate|].
  destruct (collect_cases (submit_all args envs) order 0)
    as [[Hnf ->]|(pre & i & post & e & -> & Hnf & Hi & ->)].
  - cbn [fst]. unfold summarise.
    destruct (throughput_cases (0 + sum_requests (submit_all args envs) order)
                (Float64.sub (wall 1%nat) (wall 0%nat))) as [[rps ->]| ->];
      discriminate.
  - cbn [fst]. intros [= ->]. exists i. split; [|assumption].
    apply in_or_app. right. left. reflexivity.
Qed.

Lemma throughput_guarded_witness :
  throughput 100 Float64.zero = Returned Float64.zero
  /\ summarise 100 (sample_wall 0) (sample_wall 1)
     = Returned (mkSummary 100 (Float64.of_Z 10) (Float64.of_Z 10))
  /\ summarise 100 (sample_wall 1) (sample_wall 1)
     = Returned (mkSummary 100 Float64.zero Float64.zero).
Proof.
  destruct (throughput_guarded 100 Float64.zero)
    as (_ & _ & H3 & _ & _ & H6 & _).
  destruct (throughput_guarded 100 (Float64.of_Z 10))
    as (_ & _ & _ & _ & _ & H6' & _).
  split; [apply H3; vm_compute; reflexivity|]. split.
  - destruct (H6' (sample_wall 0) (sample_wall 1)) as (Hp & _ & _);
      [vm_compute; reflexivity|].
    rewrite Hp by (vm_compute; reflexivity). vm_compute. reflexivity.
  - destruct (H6 (sample_wall 1) (sample_wall 1)) as (_ & _ & Hz);
      [vm_compute; reflexivity|].
    apply Hz. vm_compute. reflexivity.
Defined.
